(** * Tool-triggered form orchestration: the MCP tool detector

    A shallow embedding of the form detector component ([MCPToolDetector]),
    its per-tool output parsers ([MCP_TOOL_CONFIGS]), its submit and cancel
    handlers, the two-phase upload of [AddCrawlConfigForm] and the handlers
    of the other forms that the detector renders ([CrawlForm],
    [SiteKeywordForm], [KeywordClusterForm], [OutreachForm], [CustomForm],
    [DateRangePicker]), followed by the properties of the orchestration
    state machine and of the forms.

    Conventions of the embedding:
    - JavaScript values that flow through the component are values of
      [JSValue]; numbers are integers, strings are sequences of one-byte
      characters (white space and letter case are the ASCII ones).
    - A computation that can throw returns [option]; [None] is a thrown
      exception.  [try { b } catch { h }] is a [match] on the result of [b].
    - Property reads see own properties only: all values read here are JSON
      data or object literals, and no property name read by the source is
      an inherited one.
    - The two Recoil atoms are finite maps; every call of a setter of an
      atom, of [submitMessage] and of [fetch] is also appended to a trace, so
      that order and multiplicity of effects can be stated.  The local state
      of a form (progress indicators) is not part of the model. *)

From Stdlib Require Import ZArith Ascii String List Bool Lia.
From stdpp Require Import base option list strings pretty gmap.

Set Warnings "-register-all".

Local Open Scope Z_scope.
Local Open Scope string_scope.

(** ** Strings *)

Module Str.

Definition nl : string := String (ascii_of_nat 10) EmptyString.
Definition dquote : ascii := ascii_of_nat 34.

(** [String.prototype.startsWith] *)
Fixpoint startsWith (p s : string) : bool :=
  match p, s with
  | EmptyString, _ => true
  | String a p', String b s' => if Ascii.eqb a b then startsWith p' s' else false
  | String _ _, EmptyString => false
  end.

(** The rest of [s] after the prefix [p], when [s] starts with [p]. *)
Fixpoint stripPrefix (p s : string) : option string :=
  match p, s with
  | EmptyString, _ => Some s
  | String a p', String b s' => if Ascii.eqb a b then stripPrefix p' s' else None
  | String _ _, EmptyString => None
  end.

(** [String.prototype.includes] *)
Fixpoint includes (needle s : string) : bool :=
  startsWith needle s ||
  match s with
  | EmptyString => false
  | String _ s' => includes needle s'
  end.

(** [String.prototype.indexOf]; [None] is the result [-1]. *)
Fixpoint indexOf (needle s : string) : option nat :=
  if startsWith needle s then Some 0%nat
  else match s with
       | EmptyString => None
       | String _ s' => S <$> indexOf needle s'
       end.

Fixpoint take (n : nat) (s : string) : string :=
  match n, s with
  | S n', String c s' => String c (take n' s')
  | _, _ => EmptyString
  end.

Fixpoint drop (n : nat) (s : string) : string :=
  match n, s with
  | S n', String _ s' => drop n' s'
  | _, _ => s
  end.

Fixpoint takeWhile (f : ascii -> bool) (s : string) : string :=
  match s with
  | String c s' => if f c then String c (takeWhile f s') else EmptyString
  | EmptyString => EmptyString
  end.

Fixpoint dropWhile (f : ascii -> bool) (s : string) : string :=
  match s with
  | String c s' => if f c then dropWhile f s' else s
  | EmptyString => EmptyString
  end.

Fixpoint rev_onto (s acc : string) : string :=
  match s with
  | EmptyString => acc
  | String c s' => rev_onto s' (String c acc)
  end.

Definition rev (s : string) : string := rev_onto s EmptyString.

Definition endsWith (p s : string) : bool := startsWith (rev p) (rev s).

Definition isEmpty (s : string) : bool :=
  match s with EmptyString => true | _ => false end.

Definition code (c : ascii) : nat := nat_of_ascii c.

Definition in_range (lo hi : nat) (c : ascii) : bool :=
  (lo <=? code c)%nat && (code c <=? hi)%nat.

Definition is_digit (c : ascii) : bool := in_range 48 57 c.

(** The character class [[a-f0-9-]]. *)
Definition is_hex_dash (c : ascii) : bool :=
  in_range 97 102 c || is_digit c || (code c =? 45)%nat.

(** White space: space, tab, line feed, vertical tab, form feed, carriage
    return. *)
Definition is_space (c : ascii) : bool :=
  (code c =? 32)%nat || in_range 9 13 c.

(** [String.prototype.trim] *)
Definition trim (s : string) : string :=
  rev (dropWhile is_space (rev (dropWhile is_space s))).

Definition lower (c : ascii) : ascii :=
  if in_range 65 90 c then ascii_of_nat (code c + 32) else c.

(** [String.prototype.toLowerCase] *)
Fixpoint toLowerCase (s : string) : string :=
  match s with
  | EmptyString => EmptyString
  | String c s' => String (lower c) (toLowerCase s')
  end.

(** [s.replace(/\s+/g, r)]: every maximal run of white space becomes [r]. *)
Fixpoint replaceSpaces (r : string) (inRun : bool) (s : string) : string :=
  match s with
  | EmptyString => EmptyString
  | String c s' =>
      if is_space c
      then (if inRun then replaceSpaces r true s' else r +:+ replaceSpaces r true s')
      else String c (replaceSpaces r false s')
  end.

(** Replaces the character [a] by [b]; used to write JSON text with
    apostrophes in place of double quotes. *)
Fixpoint subst_char (a b : ascii) (s : string) : string :=
  match s with
  | EmptyString => EmptyString
  | String c s' => String (if Ascii.eqb c a then b else c) (subst_char a b s')
  end.

Definition json (s : string) : string := subst_char (ascii_of_nat 39) dquote s.

End Str.

(** ** JavaScript values *)

Inductive JSValue : Type :=
| JUndefined
| JNull
| JBool (b : bool)
| JNum (n : Z)
| JStr (s : string)
| JArr (items : list JSValue)
| JObj (props : list (string * JSValue)).

Module JS.

(** ToBoolean *)
Definition truthy (v : JSValue) : bool :=
  match v with
  | JUndefined | JNull => false
  | JBool b => b
  | JNum n => negb (n =? 0)%Z
  | JStr s => negb (Str.isEmpty s)
  | JArr _ | JObj _ => true
  end.

(** [a || b] *)
Definition or (a b : JSValue) : JSValue := if truthy a then a else b.

Definition isArray (v : JSValue) : bool :=
  match v with JArr _ => true | _ => false end.

Fixpoint lookup (k : string) (props : list (string * JSValue)) : option JSValue :=
  match props with
  | [] => None
  | (k', v) :: rest => if String.eqb k k' then Some v else lookup k rest
  end.

(** [o[k] = v] on the own properties: an existing key keeps its place. *)
Fixpoint setProp (k : string) (v : JSValue) (props : list (string * JSValue))
  : list (string * JSValue) :=
  match props with
  | [] => [(k, v)]
  | (k', v') :: rest =>
      if String.eqb k k' then (k, v) :: rest else (k', v') :: setProp k v rest
  end.

(** [{...a, ...b}] on own properties. *)
Definition assign (a b : list (string * JSValue)) : list (string * JSValue) :=
  fold_left (fun acc kv => setProp (fst kv) (snd kv) acc) b a.

(** [v.k]: a [TypeError] on [undefined] and [null]. *)
Definition get (v : JSValue) (k : string) : option JSValue :=
  match v with
  | JUndefined | JNull => None
  | JObj props => Some (default JUndefined (lookup k props))
  | _ => Some JUndefined
  end.

(** [v?.k] *)
Definition getOpt (v : JSValue) (k : string) : JSValue :=
  default JUndefined (get v k).

(** [{...v}]: the own properties of an object; nothing for the other values
    that reach a spread here. *)
Definition spread (v : JSValue) : list (string * JSValue) :=
  match v with JObj props => props | _ => [] end.

(** [a === b]. Two objects or arrays are equal only when they are the same
    object; the objects compared here come from different sources, so the
    comparison of two of them is [false]. *)
Definition strictEq (a b : JSValue) : bool :=
  match a, b with
  | JUndefined, JUndefined => true
  | JNull, JNull => true
  | JBool x, JBool y => Bool.eqb x y
  | JNum x, JNum y => (x =? y)%Z
  | JStr x, JStr y => String.eqb x y
  | _, _ => false
  end.

Definition join (sep : string) (parts : list string) : string :=
  match parts with
  | [] => ""
  | p :: rest => fold_left (fun acc x => acc +:+ sep +:+ x) rest p
  end.

(** ToString, as performed by template literals and property keys. *)
Fixpoint toString (v : JSValue) : string :=
  match v with
  | JUndefined => "undefined"
  | JNull => "null"
  | JBool true => "true"
  | JBool false => "false"
  | JNum n => pretty n
  | JStr s => s
  | JArr items =>
      join "," (map (fun x => match x with
                              | JUndefined | JNull => ""
                              | _ => toString x
                              end) items)
  | JObj _ => "[object Object]"
  end.

(** [a.map(f)]: a [TypeError] when [a] is not an array (no value here has a
    callable [map] of its own); the exception of a callback propagates. *)
Definition map (f : JSValue -> option JSValue) (a : JSValue) : option JSValue :=
  match a with
  | JArr items => JArr <$> mapM f items
  | _ => None
  end.

(** [a.flatMap(f)] for a callback that returns an array. *)
Definition flatMap (f : JSValue -> option JSValue) (a : JSValue) : option JSValue :=
  match a with
  | JArr items =>
      parts ← mapM f items;
      Some (JArr (concat (List.map (fun p => match p with
                                             | JArr xs => xs
                                             | other => [other]
                                             end) parts)))
  | _ => None
  end.

(** The search loop of [Array.prototype.find]. *)
Fixpoint findIn (p : JSValue -> option bool) (items : list JSValue) : option JSValue :=
  match items with
  | [] => Some JUndefined
  | x :: rest =>
      match p x with
      | Some true => Some x
      | Some false => findIn p rest
      | None => None
      end
  end.

(** [a?.find(p)]: [undefined] when [a] is [undefined] or [null], a
    [TypeError] when [a] is another value that is not an array. *)
Definition findOpt (p : JSValue -> option bool) (a : JSValue) : option JSValue :=
  match a with
  | JUndefined | JNull => Some JUndefined
  | JArr items => findIn p items
  | _ => None
  end.

(** [a[0]] *)
Definition first (a : JSValue) : JSValue :=
  match a with
  | JArr (x :: _) => x
  | JStr (String c _) => JStr (String c EmptyString)
  | _ => JUndefined
  end.

End JS.

(** ** A reference reader for JSON text

    [JSON.parse] is a built-in of the JavaScript runtime.  The development
    is parametric in it (see [Host]); this reader is the instance used to
    run the model on concrete tool outputs.  It reads the JSON grammar with
    integer numbers and one-byte characters, and rejects everything else. *)

Module Json.

Definition is_ws (c : ascii) : bool :=
  let n := Str.code c in
  (n =? 32)%nat || (n =? 9)%nat || (n =? 10)%nat || (n =? 13)%nat.

Definition skip_ws (s : string) : string := Str.dropWhile is_ws s.

Fixpoint digits_value (acc : Z) (s : string) : Z :=
  match s with
  | EmptyString => acc
  | String c s' => digits_value (10 * acc + Z.of_nat (Str.code c - 48)) s'
  end.

Definition starts_fraction (s : string) : bool :=
  match s with
  | String c _ => Ascii.eqb c "."%char || Ascii.eqb c "e"%char || Ascii.eqb c "E"%char
  | EmptyString => false
  end.

Definition read_number (s : string) : option (JSValue * string) :=
  let '(neg, body) :=
    match s with
    | String c r => if Ascii.eqb c "-"%char then (true, r) else (false, s)
    | EmptyString => (false, s)
    end in
  let ds := Str.takeWhile Str.is_digit body in
  let rest := Str.dropWhile Str.is_digit body in
  if Str.isEmpty ds then None
  else if Str.startsWith "0" ds && negb (String.eqb ds "0") then None
  else if starts_fraction rest then None
  else Some (JNum (if neg then - digits_value 0 ds else digits_value 0 ds), rest).

Definition hex_value (c : ascii) : option nat :=
  let n := Str.code c in
  if Str.in_range 48 57 c then Some (n - 48)%nat
  else if Str.in_range 97 102 c then Some (n - 87)%nat
  else if Str.in_range 65 70 c then Some (n - 55)%nat
  else None.

Definition simple_escape (c : ascii) : option ascii :=
  let n := Str.code c in
  if (n =? 34)%nat || (n =? 92)%nat || (n =? 47)%nat then Some c
  else if Ascii.eqb c "b"%char then Some (ascii_of_nat 8)
  else if Ascii.eqb c "f"%char then Some (ascii_of_nat 12)
  else if Ascii.eqb c "n"%char then Some (ascii_of_nat 10)
  else if Ascii.eqb c "r"%char then Some (ascii_of_nat 13)
  else if Ascii.eqb c "t"%char then Some (ascii_of_nat 9)
  else None.

(** The characters of a string literal after its opening quote; [acc] holds
    the characters read so far, last one first. *)
Fixpoint read_string (acc : string) (s : string) : option (string * string) :=
  match s with
  | EmptyString => None
  | String c r =>
      if (Str.code c =? 34)%nat then Some (Str.rev acc, r)
      else if (Str.code c =? 92)%nat then
        match r with
        | String e r1 =>
            match simple_escape e with
            | Some x => read_string (String x acc) r1
            | None =>
                if Ascii.eqb e "u"%char then
                  match r1 with
                  | String h1 (String h2 (String h3 (String h4 r5))) =>
                      match hex_value h1, hex_value h2, hex_value h3, hex_value h4 with
                      | Some 0%nat, Some 0%nat, Some a, Some b =>
                          if (a <? 8)%nat
                          then read_string (String (ascii_of_nat (16 * a + b)) acc) r5
                          else None
                      | _, _, _, _ => None
                      end
                  | _ => None
                  end
                else None
            end
        | EmptyString => None
        end
      else if (Str.code c <? 32)%nat then None
      else read_string (String c acc) r
  end.

Fixpoint read_value (fuel : nat) (s : string) {struct fuel} : option (JSValue * string) :=
  match fuel with
  | O => None
  | S fuel' =>
      match skip_ws s with
      | EmptyString => None
      | String c r =>
          if Ascii.eqb c "{"%char then
            match skip_ws r with
            | String c' r' =>
                if Ascii.eqb c' "}"%char then Some (JObj [], r')
                else read_members fuel' [] r
            | EmptyString => None
            end
          else if Ascii.eqb c "["%char then
            match skip_ws r with
            | String c' r' =>
                if Ascii.eqb c' "]"%char then Some (JArr [], r')
                else read_elements fuel' [] r
            | EmptyString => None
            end
          else if (Str.code c =? 34)%nat then
            match read_string EmptyString r with
            | Some (str, rest) => Some (JStr str, rest)
            | None => None
            end
          else
            match Str.stripPrefix "true" (String c r),
                  Str.stripPrefix "false" (String c r),
                  Str.stripPrefix "null" (String c r) with
            | Some rest, _, _ => Some (JBool true, rest)
            | _, Some rest, _ => Some (JBool false, rest)
            | _, _, Some rest => Some (JNull, rest)
            | None, None, None => read_number (String c r)
            end
      end
  end
with read_elements (fuel : nat) (acc : list JSValue) (s : string) {struct fuel}
  : option (JSValue * string) :=
  match fuel with
  | O => None
  | S fuel' =>
      match read_value fuel' s with
      | Some (v, rest) =>
          match skip_ws rest with
          | String c r =>
              if Ascii.eqb c ","%char then read_elements fuel' (v :: acc) r
              else if Ascii.eqb c "]"%char then Some (JArr (List.rev (v :: acc)), r)
              else None
          | EmptyString => None
          end
      | None => None
      end
  end
with read_members (fuel : nat) (acc : list (string * JSValue)) (s : string) {struct fuel}
  : option (JSValue * string) :=
  match fuel with
  | O => None
  | S fuel' =>
      match skip_ws s with
      | String q r =>
          if (Str.code q =? 34)%nat then
            match read_string EmptyString r with
            | Some (k, rest) =>
                match skip_ws rest with
                | String colon r2 =>
                    if Ascii.eqb colon ":"%char then
                      match read_value fuel' r2 with
                      | Some (v, rest2) =>
                          match skip_ws rest2 with
                          | String c r3 =>
                              if Ascii.eqb c ","%char
                              then read_members fuel' (JS.setProp k v acc) r3
                              else if Ascii.eqb c "}"%char
                              then Some (JObj (JS.setProp k v acc), r3)
                              else None
                          | EmptyString => None
                          end
                      | None => None
                      end
                    else None
                | EmptyString => None
                end
            | None => None
            end
          else None
      | EmptyString => None
      end
  end.

(** The whole text must be one value, white space apart. *)
Definition parse (s : string) : option JSValue :=
  match read_value (2 * String.length s + 2) s with
  | Some (v, rest) => if Str.isEmpty (skip_ws rest) then Some v else None
  | None => None
  end.

End Json.

(** ** The host environment

    What the component takes from outside the repository: built-ins of the
    JavaScript runtime and one constant of the data-provider package.  All
    definitions below are parametric in a [Host]; the properties hold for
    every host. *)

Record Host : Type := {
  (** [JSON.parse]; [None] is a [SyntaxError]. *)
  JSON_parse : string -> option JSValue;
  (** [Constants.mcp_delimiter], joining function and server names. *)
  mcp_delimiter : string;
  (** [String(Math.floor(v))] for a value [v] that is not a number. *)
  floorOf : JSValue -> string;
  (** [new Date(v).toLocaleDateString()], in the locale of the browser. *)
  toLocaleDateString : JSValue -> string;
  (** [new Date(v).toLocaleString()], in the locale of the browser. *)
  toLocaleString : JSValue -> string;
  (** The [message] of an exception raised by the runtime itself. *)
  runtimeErrorMessage : string;
}.

(** ** Configured tools and their parsers ([MCP_TOOL_CONFIGS]) *)

Inductive ToolName : Type :=
| render_crawl_form
| render_add_crawl_config_form
| render_custom_form
| render_outreach_generate_form
| email_sme_questions_form
| render_load_site_keyword_data_form
| render_load_keyword_cluster_form.

Inductive FormType : Type :=
| Crawl | AddCrawlConfig | Custom | Outreach | SiteKeyword | KeywordCluster.

Definition toolKey (t : ToolName) : string :=
  match t with
  | render_crawl_form => "render_crawl_form"
  | render_add_crawl_config_form => "render_add_crawl_config_form"
  | render_custom_form => "render_custom_form"
  | render_outreach_generate_form => "render_outreach_generate_form"
  | email_sme_questions_form => "email_sme_questions_form"
  | render_load_site_keyword_data_form => "render_load_site_keyword_data_form"
  | render_load_keyword_cluster_form => "render_load_keyword_cluster_form"
  end.

Definition allTools : list ToolName :=
  [render_crawl_form; render_add_crawl_config_form; render_custom_form;
   render_outreach_generate_form; email_sme_questions_form;
   render_load_site_keyword_data_form; render_load_keyword_cluster_form].

Definition configFormType (t : ToolName) : FormType :=
  match t with
  | render_crawl_form => Crawl
  | render_add_crawl_config_form => AddCrawlConfig
  | render_custom_form => Custom
  | render_outreach_generate_form => Outreach
  | email_sme_questions_form => Custom
  | render_load_site_keyword_data_form => SiteKeyword
  | render_load_keyword_cluster_form => KeywordCluster
  end.

Definition formTypeName (f : FormType) : string :=
  match f with
  | Crawl => "crawl"
  | AddCrawlConfig => "add_crawl_config"
  | Custom => "custom"
  | Outreach => "outreach"
  | SiteKeyword => "site_keyword"
  | KeywordCluster => "keyword_cluster"
  end.

#[global] Instance ToolName_eq_dec : EqDecision ToolName.
Proof. solve_decision. Defined.

#[global] Instance FormType_eq_dec : EqDecision FormType.
Proof. solve_decision. Defined.

Section Parsers.

Context (H : Host).

(** [JSON.parse(v)]: the argument is converted to a string first. *)
Definition parseValue (v : JSValue) : option JSValue :=
  JSON_parse H (JS.toString v).

(** [(v || []).map(f)] *)
Definition mapOrEmpty (f : JSValue -> option JSValue) (v : JSValue) : option JSValue :=
  JS.map f (JS.or v (JArr [])).

(** [{ k1: item.k1, ..., kn: item.kn }] *)
Definition pick (keys : list string) (item : JSValue) : option JSValue :=
  JObj <$> mapM (fun k => pair k <$> JS.get item k) keys.

(** The inner [try] block of the crawl, outreach, site keyword and keyword
    cluster parsers: the TextContent array [[{type, text}]] is unwrapped. *)
Definition unwrapTextContent (output : string) : option JSValue :=
  outputArray ← JSON_parse H output;
  match outputArray with
  | JArr (item :: _) =>
      text ← JS.get item "text";
      if JS.truthy text then parseValue text else Some outputArray
  | _ => Some outputArray
  end.

(** The inner [try]/[catch] of the same parsers: on any exception the raw
    output is parsed directly. *)
Definition parsedDataOf (output : string) : option JSValue :=
  match unwrapTextContent output with
  | Some v => Some v
  | None => JSON_parse H output
  end.

(** [prefilledParams[param.key] = param.value]: the key is converted to a
    string; assigning to [__proto__] creates no own property. *)
Definition assignParam (k : JSValue) (v : JSValue) (acc : list (string * JSValue))
  : list (string * JSValue) :=
  if String.eqb (JS.toString k) "__proto__" then acc
  else JS.setProp (JS.toString k) v acc.

Fixpoint foldParams (acc : list (string * JSValue)) (items : list JSValue)
  : option (list (string * JSValue)) :=
  match items with
  | [] => Some acc
  | param :: rest =>
      match JS.get param "key", JS.get param "value" with
      | Some k, Some v => foldParams (assignParam k v acc) rest
      | _, _ => None
      end
  end.

(** The conversion of the [prefilled_params] array of key-value pairs to an
    object. *)
Definition prefilledParamsOf (pp : JSValue) : option JSValue :=
  match pp with
  | JArr items => JObj <$> foldParams [] items
  | _ => Some (JObj [])
  end.

Definition websiteOf (ws : JSValue) : option JSValue :=
  id ← JS.get ws "id";
  name ← JS.get ws "name";
  url ← JS.get ws "url";
  Some (JObj [("id", id); ("name", JS.or name url); ("url", url)]).

(** [render_crawl_form.extractOptions], the body of the outer [try]. *)
Definition crawlBody (output : string) : option JSValue :=
  parsedData ← parsedDataOf output;
  ws ← JS.get parsedData "websites";
  websites ← mapOrEmpty websiteOf ws;
  cc ← JS.get parsedData "crawl_configs";
  crawlConfigs ← mapOrEmpty (pick ["id"; "name"; "description"; "created_at"]) cc;
  pp ← JS.get parsedData "prefilled_params";
  prefilledParams ← prefilledParamsOf pp;
  Some (JObj [("websites", websites); ("crawlConfigs", crawlConfigs);
              ("prefilledParams", prefilledParams)]).

(** [render_add_crawl_config_form.extractOptions]: the inner [try] block;
    its [catch] yields the empty object. *)
Definition addCrawlConfigUnwrap (output : string) : option JSValue :=
  outputArray ← JSON_parse H output;
  if JS.isArray outputArray && JS.truthy (JS.getOpt (JS.first outputArray) "text")
  then parseValue (JS.getOpt (JS.first outputArray) "text")
  else Some outputArray.

Definition addCrawlConfigBody (output : string) : option JSValue :=
  let parsedData := default (JObj []) (addCrawlConfigUnwrap output) in
  pp ← JS.get parsedData "prefilled_params";
  prefilledParams ← prefilledParamsOf pp;
  Some (JObj [("prefilledParams", prefilledParams)]).

(** [render_custom_form.extractOptions]. The first component is
    [parsedData] and the second [jsonString] after the inner [try]/[catch]. *)
Definition customUnwrap (output : string) : JSValue * JSValue :=
  match JSON_parse H output with
  | Some (JArr (item :: rest)) =>
      match JS.get item "text" with
      | Some text =>
          if JS.truthy text then (JUndefined, text)
          else (JArr (item :: rest), JStr output)
      | None => (JUndefined, JStr output)
      end
  | Some outputArray => (outputArray, JStr output)
  | None => (JUndefined, JStr output)
  end.

Definition noteMarker : string := Str.nl +:+ Str.nl +:+ "NOTE:".

(** The NOTE section is cut off when it starts after the first character. *)
Definition stripNote (jsonString : string) : string :=
  match Str.indexOf noteMarker jsonString with
  | Some (S n) => Str.take (S n) jsonString
  | _ => jsonString
  end.

Definition customField (field : JSValue) : option JSValue :=
  label ← JS.get field "label";
  type ← JS.get field "type";
  id ← match label with
       | JStr l => Some (JStr (Str.replaceSpaces "_" false (Str.toLowerCase l)))
       | _ => None
       end;
  let fieldData := [("label", label); ("type", type); ("id", id)] in
  if JS.strictEq type (JStr "selector") then
    options ← JS.get field "options";
    dflt ← JS.get field "default";
    let withOptions := JS.setProp "options" (JS.or options (JArr [])) fieldData in
    Some (JObj (if JS.truthy dflt then JS.setProp "default" dflt withOptions
                else withOptions))
  else Some (JObj fieldData).

Definition customBody (output : string) : option JSValue :=
  let '(parsed, jsonString) := customUnwrap output in
  parsedData ← (if JS.truthy parsed then Some parsed
                else match jsonString with
                     | JStr s => JSON_parse H (Str.trim (stripNote s))
                     | _ => None
                     end);
  ff ← JS.get parsedData "form_fields";
  formFields ← mapOrEmpty customField ff;
  requestId ← JS.get parsedData "request_id";
  functionToolName ← JS.get parsedData "function_tool_name";
  submitInstructions ← JS.get parsedData "submit_instructions";
  Some (JObj [("formFields", formFields); ("requestId", requestId);
              ("functionToolName", functionToolName);
              ("submitInstructions", JS.or submitInstructions JUndefined)]).

(** [render_outreach_generate_form.extractOptions]: senders are flattened
    out of their groups and carry the group's company name and id. *)
Definition senderOf (group sender : JSValue) : option JSValue :=
  id ← JS.get sender "id";
  name ← JS.get sender "name";
  occupation ← JS.get sender "occupation";
  details ← JS.get group "company_details";
  groupId ← JS.get group "sender_group_id";
  Some (JObj [("id", id); ("name", name); ("occupation", occupation);
              ("company_name", JS.or (JS.getOpt details "name") (JStr "Unknown Company"));
              ("sender_group_id", JS.or groupId (JStr ""))]).

Definition sendersOfGroup (group : JSValue) : option JSValue :=
  ss ← JS.get group "senders";
  mapOrEmpty (senderOf group) ss.

Definition listOf (list : JSValue) : option JSValue :=
  id ← JS.get list "id";
  name ← JS.get list "list_name";
  count ← JS.get list "leads_count";
  Some (JObj [("id", id); ("list_name", name); ("leads_count", JS.or count (JNum 0))]).

Definition outreachBody (output : string) : option JSValue :=
  parsedData ← parsedDataOf output;
  groups ← JS.get parsedData "sender_group_list";
  senders ← JS.flatMap sendersOfGroup (JS.or groups (JArr []));
  ll ← JS.get parsedData "upload_list_list";
  lists ← mapOrEmpty listOf ll;
  cl ← JS.get parsedData "campaign_list";
  campaigns ← mapOrEmpty (pick ["id"; "name"; "campaign_goal"; "description"]) cl;
  tl ← JS.get parsedData "email_template_list";
  templates ← mapOrEmpty (pick ["id"; "name"; "subject_line"; "body"]) tl;
  il ← JS.get parsedData "icp_list";
  icps ← mapOrEmpty (pick ["element_id"; "title"; "manual_query"; "target_industry";
                           "target_level"; "target_dept"]) il;
  Some (JObj [("senders", senders); ("lists", lists); ("campaigns", campaigns);
              ("templates", templates); ("icps", icps)]).

(** [email_sme_questions_form.extractOptions]. *)
Definition fenceOpen : string := "```markdown" +:+ Str.nl.
Definition fenceClose : string := Str.nl +:+ "```".

(** [s.replace(/^```markdown\n/, '').replace(/\n```$/, '')] *)
Definition stripFence (s : string) : string :=
  let s1 := default s (Str.stripPrefix fenceOpen s) in
  if Str.endsWith fenceClose s1
  then Str.take (String.length s1 - String.length fenceClose) s1
  else s1.

(** [output.match(/```markdown\n([\s\S]+?)\n```/)], the captured group: the
    shortest non-empty text between the first opening fence and a closing
    fence. *)
Definition markdownMatch (output : string) : option string :=
  i ← Str.indexOf fenceOpen output;
  match Str.drop (i + String.length fenceOpen) output with
  | String c rest =>
      j ← Str.indexOf fenceClose rest;
      Some (String c (Str.take j rest))
  | EmptyString => None
  end.

(** The inner [try] block: the value of [emailContent] when the block ends,
    and whether it ended by an exception. *)
Definition emailUnwrap (output : string) : JSValue * bool :=
  match JSON_parse H output with
  | Some (JArr (item :: _)) =>
      match JS.get item "text" with
      | Some text =>
          if JS.truthy text then
            match parseValue text with
            | Some (JArr (inner :: _)) =>
                match JS.get inner "output" with
                | Some out =>
                    if JS.truthy out then
                      match out with
                      | JStr s => (JStr (stripFence s), false)
                      | _ => (out, true)
                      end
                    else (JStr "", false)
                | None => (JStr "", true)
                end
            | Some _ => (JStr "", false)
            | None => (JStr "", true)
            end
          else (JStr "", false)
      | None => (JStr "", true)
      end
  | Some _ => (JStr "", false)
  | None => (JStr "", true)
  end.

(** [emailContent] after the inner [try]/[catch] with its regex fallback. *)
Definition emailContentOf (output : string) : JSValue :=
  let '(content, threw) := emailUnwrap output in
  if threw then
    match markdownMatch output with
    | Some m => JStr m
    | None => content
    end
  else content.

Definition emailSubmitInstructions : string :=
  "After you submit this form, the brevo_send_email tool will be used to send the email content to the recipient you specified.".

Definition emailSmeBody (output : string) : option JSValue :=
  Some (JObj
    [("formFields",
      JArr [JObj [("label", JStr "Recipient Email"); ("type", JStr "email");
                  ("id", JStr "recipient_email"); ("default", JStr "")];
            JObj [("label", JStr "Email Content"); ("type", JStr "textarea");
                  ("id", JStr "email_content"); ("default", emailContentOf output);
                  ("rows", JNum 15)]]);
     ("requestId", JNull);
     ("functionToolName", JStr "email_sme_questions_form");
     ("submitInstructions", JStr emailSubmitInstructions)]).

(** [render_load_site_keyword_data_form.extractOptions] *)
Definition siteKeywordBody (output : string) : option JSValue :=
  parsedData ← parsedDataOf output;
  sa ← JS.get parsedData "service_accounts_list";
  serviceAccounts ← mapOrEmpty (pick ["id"; "email"]) sa;
  ws ← JS.get parsedData "websites_list";
  websites ← mapOrEmpty (pick ["id"; "name"; "url"]) ws;
  ks ← JS.get parsedData "keywords_sources_list";
  Some (JObj [("serviceAccounts", serviceAccounts); ("websites", websites);
              ("keywordSources", JS.or ks (JArr [JStr "gsc"; JStr "dataforseo"]))]).

(** [render_load_keyword_cluster_form.extractOptions] *)
Definition keywordClusterBody (output : string) : option JSValue :=
  parsedData ← parsedDataOf output;
  ws ← JS.get parsedData "websites_list";
  websites ← mapOrEmpty (pick ["id"; "name"; "url"]) ws;
  Some (JObj [("websites", websites)]).

(** The body of the outer [try] of each parser; [None] when it throws. *)
Definition extractBody (t : ToolName) (output : string) : option JSValue :=
  match t with
  | render_crawl_form => crawlBody output
  | render_add_crawl_config_form => addCrawlConfigBody output
  | render_custom_form => customBody output
  | render_outreach_generate_form => outreachBody output
  | email_sme_questions_form => emailSmeBody output
  | render_load_site_keyword_data_form => siteKeywordBody output
  | render_load_keyword_cluster_form => keywordClusterBody output
  end.

(** The bundle returned by the outer [catch] of each parser. *)
Definition emptyBundle (t : ToolName) : JSValue :=
  match t with
  | render_crawl_form =>
      JObj [("websites", JArr []); ("crawlConfigs", JArr []); ("prefilledParams", JObj [])]
  | render_add_crawl_config_form => JObj [("prefilledParams", JObj [])]
  | render_custom_form | email_sme_questions_form =>
      JObj [("formFields", JArr []); ("requestId", JNull); ("functionToolName", JNull)]
  | render_outreach_generate_form =>
      JObj [("senders", JArr []); ("lists", JArr []); ("campaigns", JArr []);
            ("templates", JArr []); ("icps", JArr [])]
  | render_load_site_keyword_data_form =>
      JObj [("serviceAccounts", JArr []); ("websites", JArr []); ("keywordSources", JArr [])]
  | render_load_keyword_cluster_form => JObj [("websites", JArr [])]
  end.

(** [extractOptions]: [try { body } catch { return the empty bundle }]. *)
Definition extractOptions (t : ToolName) (output : string) : JSValue :=
  match extractBody t output with
  | Some bundle => bundle
  | None => emptyBundle t
  end.

End Parsers.

(** ** The validity gate *)

(** [Array.isArray(val) ? val.length > 0 : !!val] *)
Definition hasData (val : JSValue) : bool :=
  match val with
  | JArr items => negb (Nat.eqb (List.length items) 0)
  | _ => JS.truthy val
  end.

(** [hasValidOptions], as a boolean. *)
Definition hasValidOptions (options : JSValue) : bool :=
  match options with
  | JArr items => negb (Nat.eqb (List.length items) 0)
  | JObj props =>
      negb (Nat.eqb (List.length props) 0) && existsb (fun kv => hasData (snd kv)) props
  | _ => false
  end.

(** The reference host: the JSON reader above and the delimiter that the
    upload form uses when it builds its tool ids
    ([create_crawl_config_mcp_<server>]).  Its [floorOf] covers [true] and
    strings of digits; its date functions print a date as it was written. *)
Definition refHost : Host :=
  {| JSON_parse := Json.parse;
     mcp_delimiter := "_mcp_";
     floorOf := fun v =>
       match v with
       | JBool true => "1"
       | JStr s =>
           if negb (Str.isEmpty s) && Str.isEmpty (Str.dropWhile Str.is_digit s)
           then pretty (Json.digits_value 0 s) else "NaN"
       | _ => "NaN"
       end;
     toLocaleDateString := JS.toString;
     toLocaleString := JS.toString;
     runtimeErrorMessage := "Failed to fetch" |}.

(** ** The form state store, the conversation lock and the effect trace *)

(** One entry of [submittedFormsState].  A field that the object does not
    have is [None] (or [JUndefined]). *)
Record FormRecord : Type := {
  isSubmitted : bool;
  isCancelled : option bool;
  toolName : option string;
  serverName : option string;
  requestId : option string;
  options : JSValue;
  output : option string;
  formType : option FormType;
  submittedData : JSValue;
}.

(** [{ isSubmitted: false }], the state read for an id without an entry; it
    is also what [{...prev[formId]}] contributes when there is no entry. *)
Definition defaultFormState : FormRecord :=
  {| isSubmitted := false; isCancelled := None; toolName := None; serverName := None;
     requestId := None; options := JUndefined; output := None; formType := None;
     submittedData := JUndefined |}.

Definition cancelled (r : FormRecord) : bool := default false (isCancelled r).

Definition isPending (r : FormRecord) : bool := negb (isSubmitted r) && negb (cancelled r).


(** The calls made on the two atoms, on the conversation transport and on
    the network, in the order in which they are made.  [CallTool] is the
    [POST] to [/api/agents/tools/<toolId>/call] with the given JSON body,
    [PutFile] the [PUT] of the file to the given address. *)
Inductive Event : Type :=
| SetChatBlocked (conversation : string) (blocked : bool)
| SetSubmittedForms (formId : string) (record : FormRecord)
| SubmitMessage (text : string)
| CallTool (toolId : string) (body : JSValue)
| PutFile (url : string).

Record World : Type := {
  submittedForms : gmap string FormRecord;
  isChatBlocked : gmap string bool;
  trace : list Event;
}.

Definition emptyWorld : World :=
  {| submittedForms := ∅; isChatBlocked := ∅; trace := [] |}.

Definition emit (e : Event) (w : World) : World :=
  {| submittedForms := submittedForms w; isChatBlocked := isChatBlocked w;
     trace := trace w ++ [e] |}.

(** [setChatBlocked((prev) => ({ ...prev, [conversation]: blocked }))] *)
Definition setChatBlocked (conversation : string) (blocked : bool) (w : World) : World :=
  {| submittedForms := submittedForms w;
     isChatBlocked := <[conversation := blocked]> (isChatBlocked w);
     trace := trace w ++ [SetChatBlocked conversation blocked] |}.

(** [setSubmittedForms((prev) => ({ ...prev, [formId]: update(prev[formId]) }))] *)
Definition setSubmittedForms (formId : string) (update : FormRecord -> FormRecord)
  (w : World) : World :=
  let record := update (default defaultFormState (submittedForms w !! formId)) in
  {| submittedForms := <[formId := record]> (submittedForms w);
     isChatBlocked := isChatBlocked w;
     trace := trace w ++ [SetSubmittedForms formId record] |}.

(** [submitMessage({ text })]: the message is handed to the conversation
    transport. *)
Definition submitMessage (text : string) (w : World) : World :=
  emit (SubmitMessage text) w.

Definition messagesOf (t : list Event) : list string :=
  omap (fun e => match e with SubmitMessage text => Some text | _ => None end) t.

(** ** The detector component *)

(** The props of the component and the message context it reads.  A tool
    call without a [name], or whose [name] is not a string, is [None]. *)
Record Props : Type := {
  toolCall_name : option string;
  output_prop : option string;
  messageId : option string;
  conversationId : option string;
}.

Inductive ToolConfig : Type :=
| Configured (t : ToolName)
| Inherited.

#[global] Instance ToolConfig_eq_dec : EqDecision ToolConfig.
Proof. solve_decision. Defined.

(** The keys that every object inherits: indexing [MCP_TOOL_CONFIGS] with
    one of them yields a value that has neither [triggerForm] nor
    [formType]. *)
Definition objectPrototypeKeys : list string :=
  ["constructor"; "toString"; "toLocaleString"; "valueOf"; "hasOwnProperty";
   "isPrototypeOf"; "propertyIsEnumerable"; "__proto__"; "__defineGetter__";
   "__defineSetter__"; "__lookupGetter__"; "__lookupSetter__"].

(** [MCP_TOOL_CONFIGS[key] || null] *)
Definition MCP_TOOL_CONFIGS (key : string) : option ToolConfig :=
  match List.find (fun t => String.eqb (toolKey t) key) allTools with
  | Some t => Some (Configured t)
  | None => if existsb (String.eqb key) objectPrototypeKeys then Some Inherited else None
  end.

(** The first match of a pattern that is tried at every position, from left
    to right. *)
Fixpoint search {A : Type} (matchAt : string -> option A) (s : string) : option A :=
  match matchAt s with
  | Some a => Some a
  | None =>
      match s with
      | EmptyString => None
      | String _ s' => search matchAt s'
      end
  end.

Definition requestIdMarker : string := "request_id::".

(** [/request_id::([a-f0-9-]+)/] tried at the start of [s]: the group. *)
Definition requestIdAt (s : string) : option string :=
  rest ← Str.stripPrefix requestIdMarker s;
  let token := Str.takeWhile Str.is_hex_dash rest in
  if Str.isEmpty token then None else Some token.

(** [x || d] for an optional string. *)
Definition orElse (x : option string) (d : string) : string :=
  match x with
  | Some s => if Str.isEmpty s then d else s
  | None => d
  end.

Section Detector.

Context (H : Host).

Record ParsedName : Type := {
  function_name : string;
  server_name : string;
  isMCPToolCall : bool;
}.

(** [const [func, server] = name.split(delimiter)], with [|| ''] applied. *)
Definition splitName (name : string) : string * string :=
  let delimiter := mcp_delimiter H in
  if Str.isEmpty delimiter then (Str.take 1 name, Str.take 1 (Str.drop 1 name))
  else
    match Str.indexOf delimiter name with
    | Some i =>
        let rest := Str.drop (i + String.length delimiter) name in
        (Str.take i name,
         match Str.indexOf delimiter rest with
         | Some j => Str.take j rest
         | None => rest
         end)
    | None => (name, "")
    end.

Definition parseToolName (name : option string) : ParsedName :=
  match name with
  | None => {| function_name := ""; server_name := ""; isMCPToolCall := false |}
  | Some n =>
      if Str.isEmpty n
      then {| function_name := ""; server_name := ""; isMCPToolCall := false |}
      else if Str.includes (mcp_delimiter H) n
      then {| function_name := fst (splitName n); server_name := snd (splitName n);
              isMCPToolCall := true |}
      else {| function_name := n; server_name := ""; isMCPToolCall := false |}
  end.

Definition functionNameOf (p : Props) : string := function_name (parseToolName (toolCall_name p)).

Definition serverNameOf (p : Props) : string := server_name (parseToolName (toolCall_name p)).

Definition toolConfigOf (p : Props) : option ToolConfig :=
  if negb (isMCPToolCall (parseToolName (toolCall_name p))) || Str.isEmpty (functionNameOf p)
  then None
  else MCP_TOOL_CONFIGS (functionNameOf p).

(** The [requestId] memo. *)
Definition requestIdOf (out : option string) : option string :=
  match out with
  | None => None
  | Some o => if Str.isEmpty o then None else search requestIdAt o
  end.

Definition conversationKey (p : Props) : string := orElse (conversationId p) "no-conv".

(** The [formId] memo. *)
Definition formIdOf (p : Props) : string :=
  match requestIdOf (output_prop p) with
  | Some r => conversationKey p +:+ "-" +:+ r
  | None =>
      conversationKey p +:+ "-" +:+ orElse (messageId p) "no-msg" +:+ "-" +:+ functionNameOf p
  end.

(** [submittedForms[formId] || { isSubmitted: false }] *)
Definition thisFormState (p : Props) (w : World) : FormRecord :=
  default defaultFormState (submittedForms w !! formIdOf p).

(** The body of the trigger effect. *)
Definition triggerEffect (p : Props) (w : World) : World :=
  match toolConfigOf p, output_prop p with
  | Some (Configured t), Some out =>
      if Str.isEmpty out then w
      else
        let opts := extractOptions H t out in
        if hasValidOptions opts then
          setSubmittedForms (formIdOf p)
            (fun _ => {| isSubmitted := false; isCancelled := Some false;
                         toolName := Some (functionNameOf p);
                         serverName := Some (serverNameOf p);
                         requestId := requestIdOf (output_prop p);
                         options := opts; output := Some out;
                         formType := Some (configFormType t);
                         submittedData := JUndefined |})
            (setChatBlocked (conversationKey p) true w)
        else w
  | _, _ => w
  end.

(** The dependency array of the trigger effect (the two setters are stable
    and left out). *)
Record TriggerDeps : Type := {
  dep_toolConfig : option ToolConfig;
  dep_output : option string;
  dep_function_name : string;
  dep_serverName : string;
  dep_formId : string;
}.

#[global] Instance TriggerDeps_eq_dec : EqDecision TriggerDeps.
Proof. solve_decision. Defined.

Definition triggerDeps (p : Props) : TriggerDeps :=
  {| dep_toolConfig := toolConfigOf p; dep_output := output_prop p;
     dep_function_name := functionNameOf p; dep_serverName := serverNameOf p;
     dep_formId := formIdOf p |}.

(** One render of a component instance, as far as the trigger effect goes.
    The instance remembers the dependencies of its last render ([None]
    before it is mounted); the effect runs after the first render and after
    every render in which a dependency has changed. *)
Definition renderTrigger (lastDeps : option TriggerDeps) (p : Props) (w : World)
  : option TriggerDeps * World :=
  if decide (lastDeps = Some (triggerDeps p)) then (lastDeps, w)
  else (Some (triggerDeps p), triggerEffect p w).


(** The function returned by the cleanup effect, run when the component is
    torn down (React also runs it before it sets the effect up again after a
    change of its dependencies). *)
Definition cleanupEffect (p : Props) (w : World) : World :=
  match toolConfigOf p with
  | Some _ =>
      if negb (isSubmitted (thisFormState p w))
      then setChatBlocked (conversationKey p) false w
      else w
  | None => w
  end.

(** What the component returns: nothing, or the form of the configured
    type with the "chat disabled" banner shown while the state is neither
    submitted nor cancelled. *)
Inductive Rendered : Type :=
| RenderNull
| RenderForm (f : FormType) (banner : bool) (state : FormRecord).

Definition render (p : Props) (w : World) : Rendered :=
  match toolConfigOf p with
  | Some (Configured t) =>
      RenderForm (configFormType t) (isPending (thisFormState p w)) (thisFormState p w)
  | _ => RenderNull
  end.

(** [handleFormCancel] *)
Definition cancelMessage : string :=
  "I decided not to submit the form at this time. Let's continue our conversation.".

Definition handleFormCancel (p : Props) (w : World) : World :=
  let w1 := setSubmittedForms (formIdOf p)
              (fun prev => {| isSubmitted := false; isCancelled := Some true;
                              toolName := toolName prev; serverName := serverName prev;
                              requestId := requestId prev; options := options prev;
                              output := output prev; formType := formType prev;
                              submittedData := submittedData prev |}) w in
  let w2 := submitMessage cancelMessage w1 in
  setChatBlocked (conversationKey p) false w2.

End Detector.

(** ** Text helpers of the message templates *)

Definition hexDigit (n : nat) : ascii :=
  ascii_of_nat (if (n <? 10)%nat then 48 + n else 87 + n).

(** The escape of one character inside a JSON string literal. *)
Definition escapeChar (c : ascii) : string :=
  let n := Str.code c in
  if (n =? 34)%nat || (n =? 92)%nat then String (ascii_of_nat 92) (String c EmptyString)
  else if (n =? 8)%nat then String (ascii_of_nat 92) "b"
  else if (n =? 12)%nat then String (ascii_of_nat 92) "f"
  else if (n =? 10)%nat then String (ascii_of_nat 92) "n"
  else if (n =? 13)%nat then String (ascii_of_nat 92) "r"
  else if (n =? 9)%nat then String (ascii_of_nat 92) "t"
  else if (n <? 32)%nat
  then String (ascii_of_nat 92)
         ("u00" +:+ String (hexDigit (n / 16)) (String (hexDigit (n mod 16)) EmptyString))
  else String c EmptyString.

Fixpoint escapeString (s : string) : string :=
  match s with
  | EmptyString => EmptyString
  | String c s' => escapeChar c +:+ escapeString s'
  end.

Definition quoteString (s : string) : string :=
  String Str.dquote (escapeString s) +:+ String Str.dquote EmptyString.

(** [JSON.stringify] of a value other than [undefined]: an [undefined]
    array element is written [null] and an [undefined] property is left
    out. *)
Fixpoint JSON_stringify (v : JSValue) : string :=
  match v with
  | JUndefined | JNull => "null"
  | JBool true => "true"
  | JBool false => "false"
  | JNum n => pretty n
  | JStr s => quoteString s
  | JArr items => "[" +:+ JS.join "," (map JSON_stringify items) +:+ "]"
  | JObj props =>
      "{" +:+
      JS.join ","
        (omap (fun kv => match kv with
                         | (_, JUndefined) => None
                         | (k, x) => Some (quoteString k +:+ ":" +:+ JSON_stringify x)
                         end) props)
      +:+ "}"
  end.

(** [typeof r === 'string' ? r : JSON.stringify(r)] *)
Definition resultStringOf (r : JSValue) : string :=
  match r with
  | JStr s => s
  | _ => JSON_stringify r
  end.

Definition is_hex (c : ascii) : bool := Str.in_range 97 102 c || Str.is_digit c.

(** [n] characters of the class [f] at the start of [s]. *)
Fixpoint exactly (n : nat) (f : ascii -> bool) (s : string) : option (string * string) :=
  match n with
  | O => Some (EmptyString, s)
  | S n' =>
      match s with
      | String c s' =>
          if f c then
            match exactly n' f s' with
            | Some (taken, rest) => Some (String c taken, rest)
            | None => None
            end
          else None
      | EmptyString => None
      end
  end.

(** A sequence of groups of [n] characters of the class [f], with [sep]
    between two groups. *)
Fixpoint groupsAt (sizes : list nat) (f : ascii -> bool) (sep : string) (s : string)
  : option string :=
  match sizes with
  | [] => Some EmptyString
  | [n] => fst <$> exactly n f s
  | n :: more =>
      match exactly n f s with
      | Some (taken, rest) =>
          match Str.stripPrefix sep rest with
          | Some rest' =>
              match groupsAt more f sep rest' with
              | Some tail => Some (taken +:+ sep +:+ tail)
              | None => None
              end
          | None => None
          end
      | None => None
      end
  end.

(** [/[a-f0-9]{8}-[a-f0-9]{4}-[a-f0-9]{4}-[a-f0-9]{4}-[a-f0-9]{12}/], the match. *)
Definition matchUuid (s : string) : option string :=
  search (groupsAt [8; 4; 4; 4; 12]%nat is_hex "-") s.

Definition apostrophe : ascii := ascii_of_nat 39.

(** [/'key':\s*'(class+)'/] tried at the start of [s]: the group. *)
Definition quotedFieldAt (key : string) (class : ascii -> bool) (s : string) : option string :=
  rest ← Str.stripPrefix (String apostrophe key +:+ String apostrophe ":") s;
  match Str.dropWhile Str.is_space rest with
  | String q body =>
      if Ascii.eqb q apostrophe then
        let token := Str.takeWhile class body in
        if Str.isEmpty token then None
        else
          match Str.dropWhile class body with
          | String q' _ => if Ascii.eqb q' apostrophe then Some token else None
          | EmptyString => None
          end
      else None
  | EmptyString => None
  end.

(** [/'id':\s*'([a-f0-9-]+)'/] *)
Definition matchOperationId (s : string) : option string :=
  search (quotedFieldAt "id" Str.is_hex_dash) s.

(** [/'descriptions':\s*'([^']+)'/] *)
Definition matchDescriptions (s : string) : option string :=
  search (quotedFieldAt "descriptions" (fun c => negb (Ascii.eqb c apostrophe))) s.

(** [/(\d+)\s+cluster/i] tried at the start of [s]: the group. *)
Definition clusterCountAt (s : string) : option string :=
  let digits := Str.takeWhile Str.is_digit s in
  let afterDigits := Str.dropWhile Str.is_digit s in
  let afterSpaces := Str.dropWhile Str.is_space afterDigits in
  if Str.isEmpty digits then None
  else if Str.isEmpty (Str.takeWhile Str.is_space afterDigits) then None
  else if Str.startsWith "cluster" (Str.toLowerCase (Str.take 7 afterSpaces)) then Some digits
  else None.

Definition matchClusterCount (s : string) : option string := search clusterCountAt s.

(** [/^\d{4}-\d{2}-\d{2}/] *)
Definition looksLikeDate (s : string) : bool :=
  match groupsAt [4; 2; 2]%nat Str.is_digit "-" s with
  | Some _ => true
  | None => false
  end.

(** ** Submission: labels and message synthesis ([handleFormSubmit]) *)

Section Submit.

Context (H : Host).

(** [list?.find((x) => x.id === data[field])]; [data[field]] is read inside
    the callback, so it is read only when the list has an element. *)
Definition findById (list data : JSValue) (field : string) : option JSValue :=
  JS.findOpt (fun x =>
                match JS.get x "id", JS.get data field with
                | Some a, Some b => Some (JS.strictEq a b)
                | _, _ => None
                end) list.

(** [String(Math.floor(v))] *)
Definition mathFloor (v : JSValue) : string :=
  match v with
  | JNum n => pretty n
  | _ => floorOf H v
  end.

(** [`${website.name} (${website.url})`] *)
Definition websiteLabelOf (website : JSValue) : string :=
  JS.toString (JS.getOpt website "name") +:+ " (" +:+ JS.toString (JS.getOpt website "url") +:+ ")".

Definition senderLabelOf (sender : JSValue) : string :=
  JS.toString (JS.getOpt sender "name") +:+ " ("
  +:+ JS.toString (JS.or (JS.getOpt sender "occupation") (JStr "No title")) +:+ ") at "
  +:+ JS.toString (JS.getOpt sender "company_name").

Definition listLabelOf (list : JSValue) : string :=
  JS.toString (JS.getOpt list "list_name") +:+ " ("
  +:+ mathFloor (JS.getOpt list "leads_count") +:+ " contacts)".

(** [website ? `...` : data.website_id] *)
Definition websiteLabel (website data : JSValue) : option JSValue :=
  if JS.truthy website then Some (JStr (websiteLabelOf website))
  else JS.get data "website_id".

Definition crawlConfigLabel (crawlConfig data : JSValue) : option JSValue :=
  if JS.truthy crawlConfig then Some (JS.getOpt crawlConfig "name")
  else
    id ← JS.get data "crawl_config_id";
    Some (if JS.strictEq id (JStr "default") then JStr "Default Configuration" else id).

(** [submittedDataWithLabels]; [None] when its computation throws. *)
Definition submittedDataWithLabels (ft : option FormType) (state : FormRecord)
  (data : JSValue) : option JSValue :=
  match ft with
  | Some Outreach =>
      let opts := JS.or (options state) (JObj []) in
      sender ← findById (JS.getOpt opts "senders") data "sender_id";
      list ← findById (JS.getOpt opts "lists") data "list_id";
      campaign ← findById (JS.getOpt opts "campaigns") data "campaign_id";
      template ← findById (JS.getOpt opts "templates") data "template_id";
      Some (JObj (JS.assign (JS.spread data)
        [("senderLabel", if JS.truthy sender then JStr (senderLabelOf sender) else JUndefined);
         ("listLabel", if JS.truthy list then JStr (listLabelOf list) else JUndefined);
         ("campaignLabel", JS.getOpt campaign "name");
         ("templateLabel", JS.getOpt template "name")]))
  | Some Crawl =>
      let opts := JS.or (options state) (JObj []) in
      website ← findById (JS.getOpt opts "websites") data "website_id";
      wl ← websiteLabel website data;
      crawlConfig ← findById (JS.getOpt opts "crawlConfigs") data "crawl_config_id";
      cl ← crawlConfigLabel crawlConfig data;
      Some (JObj (JS.assign (JS.spread data) [("websiteLabel", wl); ("crawlConfigLabel", cl)]))
  | Some AddCrawlConfig =>
      file ← JS.get data "file";
      Some (JObj (JS.assign (JS.spread data) [("fileName", JS.getOpt file "name")]))
  | _ => Some (JObj (JS.spread data))
  end.

(** [data.toolResponse?.k] *)
Definition toolResponse (data : JSValue) (k : string) : option JSValue :=
  tr ← JS.get data "toolResponse";
  Some (JS.getOpt tr k).

Definition statusCompleted : string := Str.nl +:+ Str.nl +:+ "✅ **Status:** Request completed".

Definition statusFailed (error : string) : string :=
  Str.nl +:+ Str.nl +:+ "❌ **Status:** Failed" +:+ Str.nl +:+ "⚠️ **Error:** " +:+ error.

Definition isErrorText (s : string) : bool := Str.includes "error" s || Str.includes "Error" s.

Definition withMatch (label : string) (m : option string) : string :=
  match m with
  | Some x => Str.nl +:+ label +:+ x
  | None => ""
  end.

Definition crawlResultInfo (result : JSValue) : string :=
  if JS.truthy result then
    let resultString := resultStringOf result in
    if Str.includes "successfully" resultString || Str.includes "created" resultString
       || Str.includes "crawl" resultString
    then Str.nl +:+ Str.nl +:+ "✅ **Status:** Crawl operation created successfully"
         +:+ withMatch "📋 **Operation ID:** " (matchUuid resultString)
    else if isErrorText resultString then statusFailed resultString
    else statusCompleted
  else "".

Definition crawlMessage (state : FormRecord) (data : JSValue) : option string :=
  let opts := JS.or (options state) (JObj []) in
  website ← findById (JS.getOpt opts "websites") data "website_id";
  wl ← websiteLabel website data;
  crawlConfig ← findById (JS.getOpt opts "crawlConfigs") data "crawl_config_id";
  cl ← crawlConfigLabel crawlConfig data;
  launch ← JS.get data "launch_date";
  let launchDate := if JS.truthy launch then toLocaleDateString H launch else "Not specified" in
  result ← toolResponse data "result";
  description ← JS.get data "description";
  Some ("I have submitted the crawl configuration with the following details:"
        +:+ Str.nl +:+ Str.nl +:+ "🌐 **Website:** " +:+ JS.toString wl
        +:+ Str.nl +:+ "⚙️ **Crawl Config:** " +:+ JS.toString cl
        +:+ Str.nl +:+ "📅 **Launch Date:** " +:+ launchDate
        +:+ Str.nl +:+ "📝 **Description:** "
        +:+ JS.toString (JS.or description (JStr "Not specified"))
        +:+ crawlResultInfo result).

(** The status lines of the add-crawl-config message. *)
Definition addCrawlConfigResultInfo (result error : JSValue) : string :=
  if JS.truthy result then
    match (match result with JStr s => JSON_parse H s | _ => Some result end) ≫=
          (fun configData => JS.get configData "id") with
    | Some id =>
        if JS.truthy id
        then Str.nl +:+ Str.nl +:+ "✅ **Status:** Configuration created successfully"
             +:+ Str.nl +:+ "📋 **Config ID:** " +:+ JS.toString id
        else ""
    | None => Str.nl +:+ Str.nl +:+ "✅ **Status:** Configuration created"
    end
  else if JS.truthy error then statusFailed (JS.toString error)
  else "".

(** The lines of the add-crawl-config message that echo the submission. *)
Definition addCrawlConfigEcho (name fileName description : JSValue) : string :=
  "I have created the crawl configuration:"
  +:+ Str.nl +:+ Str.nl +:+ "📝 **Name:** " +:+ JS.toString name
  +:+ Str.nl +:+ "📄 **File:** " +:+ JS.toString fileName
  +:+ Str.nl +:+ "💬 **Description:** "
  +:+ JS.toString (JS.or description (JStr "Not specified")).

Definition addCrawlConfigMessage (data : JSValue) : option string :=
  file ← JS.get data "file";
  let fileName := JS.or (JS.getOpt file "name") (JStr "config file") in
  result ← toolResponse data "result";
  error ← toolResponse data "error";
  name ← JS.get data "name";
  description ← JS.get data "description";
  Some (addCrawlConfigEcho name fileName description
        +:+ addCrawlConfigResultInfo result error).

Definition operationFailed (error : string) : string :=
  Str.nl +:+ Str.nl +:+ "❌ **Operation Status:** Failed" +:+ Str.nl +:+ "⚠️ **Error:** " +:+ error.

(** The [try] block of the outreach status; [None] when it throws. *)
Definition outreachOperation (result : JSValue) : option string :=
  parsed ← (match result with JStr s => JSON_parse H s | _ => Some result end);
  ifpm ← JS.get parsed "if_pm";
  let op := JS.getOpt ifpm "create_sequential_operation" in
  let success := JS.getOpt op "success" in
  if JS.truthy success then
    opData ← JS.get op "data";
    mainOpId ← JS.get opData "mainOpId";
    outreachOpId ← JS.get opData "outreachOpId";
    Some (Str.nl +:+ Str.nl +:+ "✅ **Operation Status:** Successfully created"
          +:+ Str.nl +:+ "📋 **Main Operation ID:** " +:+ JS.toString mainOpId
          +:+ Str.nl +:+ "🚀 **Outreach Operation ID:** " +:+ JS.toString outreachOpId)
  else if JS.strictEq success (JBool false) then
    error ← JS.get op "error";
    Some (operationFailed (JS.toString (JS.or error (JStr "Unknown error"))))
  else Some (operationFailed (JS.toString parsed)).

Definition outreachOperationInfo (result : JSValue) : string :=
  if JS.truthy result then
    match outreachOperation result with
    | Some info => info
    | None => operationFailed (JS.toString result)
    end
  else "".

(** [v?.length] *)
Definition lengthOpt (v : JSValue) : JSValue :=
  match v with
  | JArr items => JNum (Z.of_nat (List.length items))
  | JStr s => JNum (Z.of_nat (String.length s))
  | _ => JS.getOpt v "length"
  end.

Definition outreachMessage (state : FormRecord) (data : JSValue) : option string :=
  let opts := JS.or (options state) (JObj []) in
  sender ← findById (JS.getOpt opts "senders") data "sender_id";
  campaign ← findById (JS.getOpt opts "campaigns") data "campaign_id";
  template ← findById (JS.getOpt opts "templates") data "template_id";
  result ← toolResponse data "result";
  audience ← JS.get data "audience_type";
  people ← JS.get data "selected_people";
  let audienceInfo :=
    if JS.strictEq audience (JStr "existing")
    then JS.toString (JS.or (lengthOpt people) (JNum 0)) +:+ " selected contacts"
    else "Manual LinkedIn URLs" in
  Some ("I have submitted the outreach campaign configuration:"
        +:+ Str.nl +:+ Str.nl +:+ "👤 **Sender:** "
        +:+ JS.toString (JS.or (JS.getOpt sender "name") (JStr "Unknown")) +:+ " ("
        +:+ JS.toString (JS.or (JS.getOpt sender "occupation") (JStr "No title")) +:+ ") at "
        +:+ JS.toString (JS.or (JS.getOpt sender "company_name") (JStr "Unknown Company"))
        +:+ Str.nl +:+ "👥 **Audience:** " +:+ audienceInfo
        +:+ Str.nl +:+ "🎯 **Campaign:** "
        +:+ JS.toString (JS.or (JS.getOpt campaign "name") (JStr "Unknown"))
        +:+ Str.nl +:+ "✉️ **Email Template:** "
        +:+ JS.toString (JS.or (JS.getOpt template "name") (JStr "Unknown"))
        +:+ outreachOperationInfo result).

Definition siteKeywordResultInfo (result : JSValue) : string :=
  if JS.truthy result then
    let resultString := resultStringOf result in
    if Str.includes "successfully" resultString || Str.includes "created" resultString
       || Str.includes "if_lg" resultString
    then Str.nl +:+ Str.nl +:+ "✅ **Status:** Operation created successfully"
         +:+ withMatch "📋 **Operation ID:** " (matchOperationId resultString)
         +:+ withMatch "📝 **Description:** " (matchDescriptions resultString)
    else if isErrorText resultString || Str.includes "failed" resultString
    then statusFailed resultString
    else statusCompleted +:+ Str.nl +:+ "📄 **Response:** " +:+ Str.take 200 resultString
  else "".

(** [state.options?.websites?.find(...)] and the label made from it. *)
Definition websiteLabelIn (state : FormRecord) (data : JSValue) : option JSValue :=
  website ← findById (JS.getOpt (options state) "websites") data "website_id";
  websiteLabel website data.

Definition serviceAccountInfo (state : FormRecord) (data : JSValue) : option string :=
  account ← JS.get data "service_account";
  if JS.truthy account then
    serviceAccount ← findById (JS.getOpt (options state) "serviceAccounts") data "service_account";
    Some (Str.nl +:+ "🔑 **Service Account:** "
          +:+ JS.toString (if JS.truthy serviceAccount then JS.getOpt serviceAccount "email"
                           else account))
  else Some "".

Definition siteKeywordMessage (state : FormRecord) (data : JSValue) : option string :=
  source ← JS.get data "keywords_source";
  let isGsc := JS.strictEq source (JStr "gsc") in
  wl ← websiteLabelIn state data;
  startDate ← JS.get data "start_date";
  endDate ← JS.get data "end_date";
  let dateInfo :=
    if isGsc && JS.truthy startDate && JS.truthy endDate
    then Str.nl +:+ "📅 **Date Range:** " +:+ JS.toString startDate +:+ " to "
         +:+ JS.toString endDate
    else "" in
  accountInfo ← (if isGsc then serviceAccountInfo state data else Some "");
  result ← toolResponse data "result";
  Some ("I have loaded site keyword data with the following configuration:"
        +:+ Str.nl +:+ Str.nl +:+ "🔍 **Source:** "
        +:+ (if isGsc then "Google Search Console" else "DataForSEO")
        +:+ Str.nl +:+ "🌐 **Website:** " +:+ JS.toString wl
        +:+ accountInfo +:+ dateInfo +:+ siteKeywordResultInfo result).

Definition keywordClusterResultInfo (result : JSValue) : string :=
  if JS.truthy result then
    let resultString := resultStringOf result in
    if Str.includes "successfully" resultString || Str.includes "created" resultString
       || Str.includes "cluster" resultString
    then Str.nl +:+ Str.nl +:+ "✅ **Status:** Clustering operation created successfully"
         +:+ withMatch "📋 **Operation ID:** " (matchOperationId resultString)
         +:+ withMatch "📊 **Clusters:** " (matchClusterCount resultString)
         +:+ Str.nl +:+ "⏳ **Note:** Clustering is processing in the background"
    else if isErrorText resultString then statusFailed resultString
    else statusCompleted
  else "".

Definition keywordClusterMessage (state : FormRecord) (data : JSValue) : option string :=
  wl ← websiteLabelIn state data;
  urlData ← JS.get data "url_data";
  let urlInfo :=
    match urlData with
    | JArr (x :: rest) =>
        Str.nl +:+ "📄 **URL Scope:** " +:+ pretty (List.length (x :: rest))
        +:+ " specific URL(s)"
    | _ => Str.nl +:+ "📄 **URL Scope:** All keywords on website"
    end in
  result ← toolResponse data "result";
  Some ("I have initiated keyword clustering with the following configuration:"
        +:+ Str.nl +:+ Str.nl +:+ "🌐 **Website:** " +:+ JS.toString wl
        +:+ urlInfo +:+ keywordClusterResultInfo result).

(** One line of the custom form message; [data] is the object built by
    the form, keyed by the ids of the fields. *)
Definition fieldDetail (data field : JSValue) : option JSValue :=
  id ← JS.get field "id";
  value ← JS.get data (JS.toString id);
  type ← JS.get field "type";
  fieldOptions ← JS.get field "options";
  displayValue ←
    (if JS.strictEq type (JStr "bool")
     then Some (JStr (if JS.truthy value then "Yes" else "No"))
     else if JS.strictEq type (JStr "selector") && JS.truthy fieldOptions
     then
       selectedOption ← JS.findOpt (fun opt => match JS.get opt "value" with
                                               | Some x => Some (JS.strictEq x value)
                                               | None => None
                                               end) fieldOptions;
       Some (JS.or (JS.getOpt selectedOption "label") value)
     else
       match value with
       | JStr s =>
           if negb (Str.isEmpty s) && looksLikeDate s
           then Some (JStr (toLocaleString H value)) else Some value
       | _ => Some value
       end);
  label ← JS.get field "label";
  Some (JStr ("**" +:+ JS.toString label +:+ ":** " +:+ JS.toString displayValue)).

(** The message of the last branch, taken by the custom form type and by a
    call without a form type. *)
Definition customMessage (ft : option FormType) (state : FormRecord) (data : JSValue)
  : option string :=
  let formFields := JS.or (JS.getOpt (options state) "formFields") (JArr []) in
  lines ← JS.map (fieldDetail data) formFields;
  Some ("I have submitted the "
        +:+ match ft with Some f => formTypeName f | None => "form" end
        +:+ " with the following configuration:" +:+ Str.nl +:+ Str.nl
        +:+ JS.join Str.nl (List.map JS.toString (match lines with JArr l => l | _ => [] end))
        +:+ Str.nl +:+ Str.nl +:+ "Please proceed based on these details.").

(** The message of each form type; [None] when its computation throws. *)
Definition synthesizeMessage (ft : option FormType) (state : FormRecord) (data : JSValue)
  : option string :=
  match ft with
  | Some Crawl => crawlMessage state data
  | Some AddCrawlConfig => addCrawlConfigMessage data
  | Some Outreach => outreachMessage state data
  | Some SiteKeyword => siteKeywordMessage state data
  | Some KeywordCluster => keywordClusterMessage state data
  | _ => customMessage ft state data
  end.

(** [toolConfig?.formType] *)
Definition formTypeOf (p : Props) : option FormType :=
  match toolConfigOf H p with
  | Some (Configured t) => Some (configFormType t)
  | _ => None
  end.

(** [handleFormSubmit].  The state captured by the callback is the one of
    the current store.  An exception thrown while the labels or the message
    are computed ends the handler where it stands: what was done before
    stays done. *)
Definition handleFormSubmit (p : Props) (data : JSValue) (w : World) : World :=
  let ft := formTypeOf p in
  let state := thisFormState H p w in
  match submittedDataWithLabels ft state data with
  | None => w
  | Some labelled =>
      let w1 := setSubmittedForms (formIdOf H p)
                  (fun prev => {| isSubmitted := true; isCancelled := isCancelled prev;
                                  toolName := toolName prev; serverName := serverName prev;
                                  requestId := requestId prev; options := options prev;
                                  output := output prev; formType := formType prev;
                                  submittedData := labelled |}) w in
      match synthesizeMessage ft state data with
      | None => w1
      | Some message => setChatBlocked (conversationKey p) false (submitMessage message w1)
      end
  end.

End Submit.

(** ** The two-phase upload of the add-crawl-config form *)

(** A thrown value: an [Error] with its message, or something else. *)
Inductive Thrown : Type :=
| ErrorObject (message : string)
| OtherValue.

(** [error instanceof Error ? error.message : 'Unknown error'] *)
Definition errorMessage (e : Thrown) : string :=
  match e with
  | ErrorObject message => message
  | OtherValue => "Unknown error"
  end.

(** The outcome of one [fetch]: a rejection, or a response with its [ok]
    flag, its status and its body ([None] when the body cannot be read). *)
Inductive FetchResult : Type :=
| NetworkFailure (e : Thrown)
| Response (ok : bool) (status : Z) (body : option string).

(** What the network answers to the three calls of one submission. *)
Record Network : Type := {
  createCall : FetchResult;
  uploadCall : FetchResult;
  deleteCall : FetchResult;
}.

(** The state of the form when it is submitted; [file] is the name of the
    selected file. *)
Record UploadForm : Type := {
  name : string;
  description : string;
  file : option string;
}.

Section Upload.

Context (H : Host).

Definition runtimeError : Thrown := ErrorObject (runtimeErrorMessage H).

Definition createToolId (server : string) : string := "create_crawl_config_mcp_" +:+ server.

Definition deleteToolId (server : string) : string := "delete_crawl_config_mcp_" +:+ server.

Definition noUploadUrl : string :=
  "No upload URL received from server. The config may have been created but file upload cannot proceed.".

(** The payload handed to [onSubmit]. *)
Definition submission (form : UploadForm) (fileName : string) (response : JSValue) : JSValue :=
  JObj [("name", JStr (name form)); ("description", JStr (description form));
        ("file", JObj [("name", JStr fileName)]); ("toolResponse", response)].

(** [configData] from the parsed body of the create response. *)
Definition resolveConfigData (result : JSValue) : Thrown + JSValue :=
  match JS.get result "result" with
  | None => inl runtimeError
  | Some inner =>
      if JS.truthy inner then
        match inner with
        | JStr s =>
            match JSON_parse H s with
            | Some configData => inr configData
            | None => inl (ErrorObject ("Failed to parse server response: " +:+ Str.take 100 s))
            end
        | _ => inr inner
        end
      else inr result
  end.

(** Phase one, from the create response to [configData]. *)
Definition createPhase (net : Network) : Thrown + JSValue :=
  match createCall net with
  | NetworkFailure e => inl e
  | Response true _ body =>
      match body ≫= JSON_parse H with
      | Some result => resolveConfigData result
      | None => inl runtimeError
      end
  | Response false status body =>
      match body with
      | Some errorText =>
          inl (ErrorObject ("Failed to create config: " +:+ pretty status +:+ " - " +:+ errorText))
      | None => inl runtimeError
      end
  end.

(** Phase two: what the upload throws, if anything.  A rejected [fetch]
    throws its reason; a response that is not [ok] throws an [Error] with
    its status and its body, or a fixed text when the body cannot be read. *)
Definition uploadError (r : FetchResult) : option Thrown :=
  match r with
  | NetworkFailure e => Some e
  | Response true _ _ => None
  | Response false status body =>
      Some (ErrorObject ("Upload failed: " +:+ pretty status +:+ " - "
                         +:+ default "Unable to read error response" body))
  end.

(** The [catch] block: the compensating delete when [configId] is set, whose
    own failure is caught and whose response is not read, then [onSubmit]
    with the error. *)
Definition failUpload (onSubmit : JSValue -> World -> World) (form : UploadForm)
  (fileName server : string) (net : Network) (configId : JSValue) (e : Thrown)
  (w : World) : World :=
  let w1 :=
    if JS.truthy configId then
      let called := emit (CallTool (deleteToolId server) (JObj [("id", configId)])) w in
      match deleteCall net with
      | NetworkFailure _ => called
      | Response _ _ _ => called
      end
    else w in
  onSubmit (submission form fileName (JObj [("error", JStr (errorMessage e))])) w1.

(** [AddCrawlConfigForm.handleSubmit] *)
Definition handleSubmit (onSubmit : JSValue -> World -> World) (form : UploadForm)
  (server : string) (net : Network) (w : World) : World :=
  match file form with
  | None => w
  | Some fileName =>
      if Str.isEmpty (name form) then w
      else
        let fail := failUpload onSubmit form fileName server net in
        let w1 := emit (CallTool (createToolId server)
                          (JObj [("name", JStr (name form));
                                 ("description", JS.or (JStr (description form)) JUndefined)])) w in
        match createPhase net with
        | inl e => fail JNull e w1
        | inr configData =>
            match JS.get configData "id" with
            | None => fail JNull runtimeError w1
            | Some configId =>
                let uploadUrl := JS.or (JS.getOpt configData "upload_url")
                                       (JS.getOpt configData "uploadUrl") in
                if JS.truthy uploadUrl then
                  let w2 := emit (PutFile (JS.toString uploadUrl)) w1 in
                  match uploadError (uploadCall net) with
                  | Some e => fail configId e w2
                  | None =>
                      onSubmit (submission form fileName (JObj [("result", configData)])) w2
                  end
                else fail configId (ErrorObject noUploadUrl) w1
            end
        end
  end.

End Upload.

(** ** The forms and their tool calls

    Each form calls its tool with [fetch] and hands the outcome to the
    [onSubmit] callback that the detector gave it ([handleFormSubmit]).
    [handleFormSubmit] is an [async] function: an exception raised inside it
    rejects its promise and never reaches the form, so the callback is a
    transformer of the world. *)

Section ToolCall.

Context (H : Host).

Definition httpError (status : Z) (errorText : string) : string :=
  "HTTP error! status: " +:+ pretty status +:+ ", body: " +:+ errorText.

(** [fetch], the test of [response.ok] and [await response.json()], as the
    crawl, site keyword and keyword cluster forms make them: what is thrown,
    or the parsed body. *)
Definition callResult (r : FetchResult) : Thrown + JSValue :=
  match r with
  | NetworkFailure e => inl e
  | Response true _ body =>
      match body ≫= JSON_parse H with
      | Some result => inr result
      | None => inl (runtimeError H)
      end
  | Response false status body =>
      match body with
      | Some errorText => inl (ErrorObject (httpError status errorText))
      | None => inl (runtimeError H)
      end
  end.

(** [{ error: error instanceof Error ? error.message : 'Unknown error' }] *)
Definition errorResponse (e : Thrown) : JSValue :=
  JObj [("error", JStr (errorMessage e))].

End ToolCall.

(** [s.split('\n')] *)
Fixpoint splitLines (s : string) : list string :=
  match s with
  | EmptyString => [EmptyString]
  | String c s' =>
      if Ascii.eqb c (ascii_of_nat 10) then EmptyString :: splitLines s'
      else match splitLines s' with
           | line :: rest => String c line :: rest
           | [] => [String c EmptyString]
           end
  end.

(** [s.split('\n').map((url) => url.trim()).filter((url) => url.length > 0)] *)
Definition trimmedLines (s : string) : list string :=
  List.filter (fun url => negb (Str.isEmpty url)) (List.map Str.trim (splitLines s)).

(** *** The keyword cluster form *)

Module KeywordClusterForm.

Record FormData : Type := {
  website_id : string;
  url_text : string;
}.

Definition parseUrls (urlText : string) : list string :=
  if Str.isEmpty (Str.trim urlText) then [] else trimmedLines urlText.

Definition toolId (server : string) : string := "load_keyword_cluster_mcp_" +:+ server.

Definition urlValues (urls : list string) : JSValue := JArr (List.map JStr urls).

(** The payload: [url_data] is added only when URLs were given. *)
Definition payload (formData : FormData) : JSValue :=
  let urlArray := parseUrls (url_text formData) in
  JObj (("website_id", JStr (website_id formData))
        :: match urlArray with
           | [] => []
           | _ :: _ => [("url_data", urlValues urlArray)]
           end).

(** What [onSubmit] gets after the call, and in the [catch] block. *)
Definition succeeded (formData : FormData) (result : JSValue) : JSValue :=
  let urlArray := parseUrls (url_text formData) in
  JObj [("website_id", JStr (website_id formData));
        ("url_data", match urlArray with [] => JUndefined | _ :: _ => urlValues urlArray end);
        ("toolResponse", result)].

Definition failed (formData : FormData) (response : JSValue) : JSValue :=
  JObj [("website_id", JStr (website_id formData));
        ("url_data", urlValues (parseUrls (url_text formData)));
        ("toolResponse", response)].

Section Handlers.

Context (H : Host).

(** [handleSubmit]; the logging that follows [response.json()] reads
    [result.result], which throws when the body is [null]. *)
Definition handleSubmit (onSubmit : JSValue -> World -> World) (formData : FormData)
  (server : string) (r : FetchResult) (w : World) : World :=
  if Str.isEmpty (website_id formData) then w
  else
    let w1 := emit (CallTool (toolId server) (payload formData)) w in
    match callResult H r with
    | inl e => onSubmit (failed formData (errorResponse e)) w1
    | inr result =>
        match JS.get result "result" with
        | None => onSubmit (failed formData (errorResponse (runtimeError H))) w1
        | Some _ => onSubmit (succeeded formData result) w1
        end
    end.

End Handlers.

End KeywordClusterForm.

(** *** The crawl form *)

Module CrawlForm.

(** The values come from the inputs of the form (strings) or from the
    prefilled parameters (any JSON value). *)
Record FormData : Type := {
  website_id : JSValue;
  launch_date : JSValue;
  description : JSValue;
  crawl_config_id : JSValue;
}.




Definition toolId (server : string) : string := "create_new_crawl_operation_mcp_" +:+ server.

Definition fields (formData : FormData) : list (string * JSValue) :=
  [("website_id", website_id formData); ("launch_date", launch_date formData);
   ("description", description formData); ("crawl_config_id", crawl_config_id formData)].

Definition isValid (formData : FormData) : bool :=
  JS.truthy (website_id formData) && JS.truthy (launch_date formData)
  && JS.truthy (description formData) && JS.truthy (crawl_config_id formData).

(** [{ ...formData, toolResponse: response }] *)
Definition submission (formData : FormData) (response : JSValue) : JSValue :=
  JObj (fields formData ++ [("toolResponse", response)])%list.

Section Handlers.

Context (H : Host).

Definition handleSubmit (onSubmit : JSValue -> World -> World) (formData : FormData)
  (server : string) (r : FetchResult) (w : World) : World :=
  if negb (isValid formData) then w
  else
    let w1 := emit (CallTool (toolId server) (JObj (fields formData))) w in
    match callResult H r with
    | inl e => onSubmit (submission formData (errorResponse e)) w1
    | inr result => onSubmit (submission formData result) w1
    end.

End Handlers.

End CrawlForm.

(** *** The site keyword form *)

Module SiteKeywordForm.

Record FormData : Type := {
  keywords_source : string;
  website_id : string;
  service_account : string;
  start_date : string;
  end_date : string;
}.

Definition isGsc (formData : FormData) : bool := String.eqb (keywords_source formData) "gsc".

(** The validation at the head of [handleSubmit]. *)
Definition isValid (formData : FormData) : bool :=
  negb (Str.isEmpty (keywords_source formData))
  && negb (Str.isEmpty (website_id formData))
  && (if isGsc formData
      then negb (Str.isEmpty (service_account formData))
           && negb (Str.isEmpty (start_date formData))
           && negb (Str.isEmpty (end_date formData))
      else true).

Definition toolId (server : string) : string := "load_site_keyword_data_mcp_" +:+ server.

Definition payload (formData : FormData) : JSValue :=
  JObj ([("keywords_source", JStr (keywords_source formData));
         ("website_id", JStr (website_id formData))]
        ++ if isGsc formData
           then [("service_account", JStr (service_account formData));
                 ("start_date", JStr (start_date formData));
                 ("end_date", JStr (end_date formData))]
           else [])%list.

(** [{ ...formData, toolResponse: response }] *)
Definition submission (formData : FormData) (response : JSValue) : JSValue :=
  JObj [("keywords_source", JStr (keywords_source formData));
        ("website_id", JStr (website_id formData));
        ("service_account", JStr (service_account formData));
        ("start_date", JStr (start_date formData));
        ("end_date", JStr (end_date formData));
        ("toolResponse", response)].

Section Handlers.

Context (H : Host).

(** [handleSubmit]; the logging that follows [response.json()] takes a
    preview of [result.result]: it throws when the body is [null], and,
    because [JSON.stringify(undefined)] is [undefined], when the body has no
    [result]. *)
Definition handleSubmit (onSubmit : JSValue -> World -> World) (formData : FormData)
  (server : string) (r : FetchResult) (w : World) : World :=
  if negb (isValid formData) then w
  else
    let w1 := emit (CallTool (toolId server) (payload formData)) w in
    match callResult H r with
    | inl e => onSubmit (submission formData (errorResponse e)) w1
    | inr result =>
        match JS.get result "result" with
        | None | Some JUndefined =>
            onSubmit (submission formData (errorResponse (runtimeError H))) w1
        | Some _ => onSubmit (submission formData result) w1
        end
    end.

End Handlers.

End SiteKeywordForm.

(** *** The outreach form *)

Module OutreachForm.

Inductive Audience : Type := existing | manual.

Definition audienceName (a : Audience) : string :=
  match a with existing => "existing" | manual => "manual" end.

(** The state of the form: [formData], the audience option, the people
    selected among the search results, the manual URLs and the
    authentication token. *)
Record State : Type := {
  sender_id : JSValue;
  sender_group_id : JSValue;
  list_id : JSValue;
  icp_id : JSValue;
  campaign_id : JSValue;
  template_id : JSValue;
  audienceOption : Audience;
  selectedPeople : list JSValue;
  manualUrls : string;
  token : option string;
}.

(** [xs.filter((p) => keep(p))] for a callback that can throw. *)
Fixpoint filterOpt (keep : JSValue -> option bool) (xs : list JSValue)
  : option (list JSValue) :=
  match xs with
  | [] => Some []
  | x :: rest =>
      match keep x with
      | Some b =>
          match filterOpt keep rest with
          | Some kept => Some (if b then x :: kept else kept)
          | None => None
          end
      | None => None
      end
  end.

(** [p.element_id === person.element_id]; the ids are strings or other
    primitive values. *)
Definition sameElement (person p : JSValue) : option bool :=
  a ← JS.get p "element_id";
  b ← JS.get person "element_id";
  Some (JS.strictEq a b).

(** The updater of [togglePersonSelection]. *)
Definition togglePersonSelection (person : JSValue) (prev : list JSValue)
  : option (list JSValue) :=
  isSelected ← JS.findIn (sameElement person) prev;
  if JS.truthy isSelected
  then filterOpt (fun p => negb <$> sameElement person p) prev
  else Some (prev ++ [person])%list.

Definition toolId (server : string) : string := "outreach_email_generation_mcp_" +:+ server.

Definition hasValidAudience (s : State) : bool :=
  match audienceOption s with
  | existing => negb (Nat.eqb (List.length (selectedPeople s)) 0)
  | manual => negb (Str.isEmpty (Str.trim (manualUrls s)))
  end.

Definition hasToken (s : State) : bool :=
  match token s with
  | Some t => negb (Str.isEmpty t)
  | None => false
  end.

(** [selectedPeople.map((p) => p.element_id)] *)
Definition elementIds (s : State) : option (list JSValue) :=
  mapM (fun p => JS.get p "element_id") (selectedPeople s).

(** The [identifier] list of the payload. *)
Definition identifier (s : State) : option (list JSValue) :=
  match audienceOption s with
  | existing => elementIds s
  | manual => Some (List.map JStr (trimmedLines (manualUrls s)))
  end.

Definition campaignPayload (s : State) (ids : list JSValue) : JSValue :=
  JObj [("campaign_id", campaign_id s);
        ("identifier", JArr ids);
        ("identifier_type",
         JStr match audienceOption s with
              | existing => "ELEMENT_ID"
              | manual => "LINKEDIN_URL"
              end);
        ("sender_group_id", sender_group_id s);
        ("sender_id", sender_id s);
        ("template_id", template_id s)].

(** [finalFormData] *)
Definition finalFormData (s : State) (ids : list JSValue) (data : JSValue) : JSValue :=
  JObj [("sender_id", sender_id s); ("sender_group_id", sender_group_id s);
        ("list_id", list_id s); ("icp_id", icp_id s);
        ("campaign_id", campaign_id s); ("template_id", template_id s);
        ("selected_people",
         match audienceOption s with existing => JArr ids | manual => JUndefined end);
        ("manual_urls",
         match audienceOption s with existing => JUndefined | manual => JStr (manualUrls s) end);
        ("audience_type", JStr (audienceName (audienceOption s)));
        ("toolResponse", data)].

Section Handlers.

Context (H : Host).

(** [handleSubmit]: its [catch] block only logs. *)
Definition handleSubmit (onSubmit : JSValue -> World -> World) (s : State)
  (server : string) (r : FetchResult) (w : World) : World :=
  if negb (JS.truthy (sender_id s)) || negb (hasValidAudience s)
     || negb (JS.truthy (campaign_id s)) || negb (JS.truthy (template_id s))
  then w
  else if negb (hasToken s) then w
  else
    match identifier s with
    | None => w
    | Some ids =>
        let w1 := emit (CallTool (toolId server) (campaignPayload s ids)) w in
        match r with
        | Response true _ body =>
            match body ≫= JSON_parse H with
            | Some data =>
                match JS.get data "result" with
                | Some _ => onSubmit (finalFormData s ids data) w1
                | None => w1
                end
            | None => w1
            end
        | _ => w1
        end
    end.

End Handlers.

End OutreachForm.

(** *** The custom form *)

Module CustomForm.




(** The test that [every] applies to a field. *)
Definition fieldFilled (formData : list (string * JSValue)) (field : JSValue) : option bool :=
  id ← JS.get field "id";
  type ← JS.get field "type";
  let value := default JUndefined (JS.lookup (JS.toString id) formData) in
  Some (if JS.strictEq type (JStr "bool")
        then match value with JBool _ => true | _ => false end
        else match value with
             | JStr s => negb (Str.isEmpty (Str.trim s))
             | _ => false
             end).

(** [formFields.every(...)] *)
Fixpoint isValid (formData : list (string * JSValue)) (formFields : list JSValue)
  : option bool :=
  match formFields with
  | [] => Some true
  | field :: rest =>
      match fieldFilled formData field with
      | Some true => isValid formData rest
      | Some false => Some false
      | None => None
      end
  end.

(** [handleInputChange] *)
Definition handleInputChange (fieldId : string) (value : JSValue)
  (formData : list (string * JSValue)) : list (string * JSValue) :=
  JS.setProp fieldId value formData.

Definition handleSubmit (onSubmit : JSValue -> World -> World) (formFields : list JSValue)
  (formData : list (string * JSValue)) (w : World) : World :=
  match isValid formData formFields with
  | Some true => onSubmit (JObj formData) w
  | _ => w
  end.

End CustomForm.

(** *** The date range picker *)

Module DateRangePicker.

(** A date is its time value; [internalStartDate] and [internalEndDate]
    are [None] when they are [null]. *)
Record Range : Type := {
  internalStartDate : option Z;
  internalEndDate : option Z;
}.

(** [handleDateClick]: [selectedDate] is the day that was clicked and
    [today] the start of the current day. *)
Definition handleDateClick (today selectedDate : Z) (range : Range) : Range :=
  if (selectedDate >? today)%Z then range
  else
    match internalStartDate range, internalEndDate range with
    | Some start, None =>
        if (selectedDate <? start)%Z
        then {| internalStartDate := Some selectedDate; internalEndDate := Some start |}
        else {| internalStartDate := Some start; internalEndDate := Some selectedDate |}
    | _, _ => {| internalStartDate := Some selectedDate; internalEndDate := None |}
    end.

(** [clearDates], as far as the range goes. *)
Definition clearDates (range : Range) : Range :=
  {| internalStartDate := None; internalEndDate := None |}.

End DateRangePicker.

(** *** The file of the add-crawl-config form *)

Module AddCrawlConfigForm.

(** A selected file: its name and its size in bytes. *)
Record SelectedFile : Type := {
  name : string;
  size : Z;
}.

Definition maxSize : Z := 10 * 1024 * 1024.

(** [handleFileChange]: the new value of [file].  A selection that is
    refused leaves the file that was there. *)
Definition handleFileChange (selectedFile : option SelectedFile)
  (file : option SelectedFile) : option SelectedFile :=
  match selectedFile with
  | Some f =>
      if negb (Str.endsWith ".seospiderconfig" (name f)) then file
      else if (size f >? maxSize)%Z then file
      else Some f
  | None => file
  end.

(** What the user does with the file input: a selection, or a click on
    the button that removes the file. *)
Inductive FileAction : Type :=
| SelectFile (selectedFile : option SelectedFile)
| RemoveFile.

Definition fileAfter (file : option SelectedFile) (a : FileAction) : option SelectedFile :=
  match a with
  | SelectFile selectedFile => handleFileChange selectedFile file
  | RemoveFile => None
  end.

End AddCrawlConfigForm.

(** ** Vocabulary of the statements

    Records of terminal forms, shapes of bundles and the scenarios on which
    the model is run. *)

Fixpoint all (f : ascii -> bool) (s : string) : bool :=
  match s with
  | EmptyString => true
  | String c s' => f c && all f s'
  end.

(** The first character of [s], if any, satisfies [f]. *)
Definition headIs (f : ascii -> bool) (s : string) : bool :=
  match s with
  | EmptyString => false
  | String c _ => f c
  end.

(** The marker without its last character. *)
Definition markerStem : string := "request_id:".

(** Scenario A: a crawl form request of server [srv] in conversation
    [conv1]. *)
Definition scenarioA : Props :=
  {| toolCall_name := Some "render_crawl_form_mcp_srv";
     output_prop := Some (Str.json "{'websites':[{'id':'w1','name':'Acme','url':'acme.com'}]}");
     messageId := Some "m1";
     conversationId := Some "conv1" |}.

(** Scenario D: an output that carries a request id. *)
Definition scenarioD : Props :=
  {| toolCall_name := Some "render_custom_form_mcp_srv";
     output_prop := Some "ok request_id::abc-123-def done";
     messageId := Some "m1";
     conversationId := Some "conv1" |}.


(** The record of a submitted form: the flag is set and the labelled data
    stored, the other fields are kept. *)
Definition asSubmitted (r : FormRecord) (labelled : JSValue) : FormRecord :=
  {| isSubmitted := true; isCancelled := isCancelled r; toolName := toolName r;
     serverName := serverName r; requestId := requestId r; options := options r;
     output := output r; formType := formType r; submittedData := labelled |}.

(** The data submitted by the crawl form of scenario A. *)
Definition crawlData : JSValue :=
  JObj [("website_id", JStr "w1"); ("launch_date", JStr "");
        ("description", JStr "Weekly crawl"); ("crawl_config_id", JStr "default")].




(** Scenario E: the configuration [cfg1] is created, the [PUT] answers 500,
    and the delete call itself fails. *)
Definition scenarioE : Props :=
  {| toolCall_name := Some "render_add_crawl_config_form_mcp_srv";
     output_prop := Some (Str.json "{'prefilled_params':[{'key':'name','value':'Shop'}]}");
     messageId := Some "m7";
     conversationId := Some "conv1" |}.

Definition networkE : Network :=
  {| createCall := Response true 200 (Some (Str.json "{'id':'cfg1','upload_url':'https://x'}"));
     uploadCall := Response false 500 (Some "Internal Server Error");
     deleteCall := NetworkFailure (ErrorObject "Failed to fetch") |}.

Definition formE : UploadForm :=
  {| name := "Shop"; description := ""; file := Some "shop.seospiderconfig" |}.


(** An empty list or a falsy scalar. *)
Definition emptyValue (v : JSValue) : bool :=
  match v with
  | JArr [] => true
  | JUndefined | JNull | JBool false | JNum 0 | JStr EmptyString => true
  | _ => false
  end.

(** A bundle in which every list is empty and every other field is a falsy
    scalar; a bundle that is itself a list is such when it is empty. *)
Definition allEmptyOrFalsy (bundle : JSValue) : bool :=
  match bundle with
  | JArr items => match items with [] => true | _ => false end
  | JObj props => forallb (fun kv => emptyValue (snd kv)) props
  | _ => true
  end.


(** What an operation may change: the record under [formId], the flag of
    [conversation], and the trace, which it may only extend. *)
Definition touchesOnly (formId conversation : string) (w w' : World) : Prop :=
  (forall id, id <> formId -> submittedForms w' !! id = submittedForms w !! id)
  /\ (forall c, c <> conversation -> isChatBlocked w' !! c = isChatBlocked w !! c)
  /\ exists events, trace w' = (trace w ++ events)%list.


(** The value of the last parameter of [items] whose key converts to [k]. *)
Definition lastParam (k : string) (items : list JSValue) : option JSValue :=
  fold_left (fun found param =>
               if String.eqb (JS.toString (JS.getOpt param "key")) k
               then Some (JS.getOpt param "value") else found) items None.

(** [v || d] gave its result: a truthy value, or the default [d]. *)
Definition truthyOr (d v : JSValue) : Prop := JS.truthy v = true \/ v = d.

(** The network calls of one run of the upload: the create call, the
    [PUT] to [put] when there is one, the delete call for [del] when there
    is one. *)
Definition uploadCalls (server : string) (form : UploadForm) (put : option string)
  (del : option JSValue) : list Event :=
  CallTool (createToolId server)
    (JObj [("name", JStr (name form));
           ("description", JS.or (JStr (description form)) JUndefined)])
  :: match put with Some url => [PutFile url] | None => [] end
  ++ match del with
     | Some configId => [CallTool (deleteToolId server) (JObj [("id", configId)])]
     | None => []
     end.

(** The data stored for a submission of the upload form. *)
Definition labelledUpload (form : UploadForm) (fileName : string) (response : JSValue)
  : JSValue :=
  JObj [("name", JStr (name form)); ("description", JStr (description form));
        ("file", JObj [("name", JStr fileName)]);
        ("toolResponse", response);
        ("fileName", JStr fileName)].


(** Scenario F: the configuration is created and the file uploaded. *)
Definition networkF : Network :=
  {| createCall := Response true 200
                     (Some (Str.json "{'result':{'id':'cfg1','upload_url':'https://x'}}"));
     uploadCall := Response true 200 None;
     deleteCall := NetworkFailure OtherValue |}.

(** A file that the add-crawl-config form accepts. *)
Definition acceptedFile (f : AddCrawlConfigForm.SelectedFile) : Prop :=
  Str.endsWith ".seospiderconfig" (AddCrawlConfigForm.name f) = true
  /\ (AddCrawlConfigForm.size f <= AddCrawlConfigForm.maxSize)%Z.

(** [s] without its trailing white space. *)
Definition trimEnd (s : string) : string :=
  Str.rev (Str.dropWhile Str.is_space (Str.rev s)).





(** The [element_id] of a person of the search results, when it is a
    string. *)
Definition elementIdOf (person : JSValue) : option string :=
  match JS.get person "element_id" with
  | Some (JStr id) => Some id
  | _ => None
  end.

Definition personIds (people : list JSValue) : list string := omap elementIdOf people.



(** A range of the date picker in which an end date comes with a start
    date that is not after it. *)
Definition orderedRange (range : DateRangePicker.Range) : Prop :=
  match DateRangePicker.internalStartDate range, DateRangePicker.internalEndDate range with
  | Some start, Some finish => (start <= finish)%Z
  | None, Some _ => False
  | _, None => True
  end.

(** The dates of a range. *)
Definition rangeDates (range : DateRangePicker.Range) : list Z :=
  match DateRangePicker.internalStartDate range with Some d => [d] | None => [] end
  ++ match DateRangePicker.internalEndDate range with Some d => [d] | None => [] end.








(** * Properties *)

(** ** Runs of the model *)

Example parse_scenario_A :
  Json.parse (Str.json "{'websites':[{'id':'w1','name':'Acme','url':'acme.com'}]}")
  = Some (JObj [("websites",
                 JArr [JObj [("id", JStr "w1"); ("name", JStr "Acme"); ("url", JStr "acme.com")]])]).
Proof. vm_compute. reflexivity. Qed.

Example parse_text_content :
  Json.parse (Str.json "[{'type': 'text', 'text': '{\'a\': [1, -20, true, null]}'}]")
  = Some (JArr [JObj [("type", JStr "text");
                      ("text", JStr (Str.json "{'a': [1, -20, true, null]}"))]]).
Proof. vm_compute. reflexivity. Qed.

Example parse_rejects :
  Json.parse "garbage" = None /\ Json.parse "" = None /\ Json.parse "[1,]" = None
  /\ Json.parse "[] x" = None /\ Json.parse "01" = None.
Proof. vm_compute. repeat split; reflexivity. Qed.

Example extract_scenario_A :
  extractOptions refHost render_crawl_form
    (Str.json "{'websites':[{'id':'w1','name':'Acme','url':'acme.com'}]}")
  = JObj [("websites", JArr [JObj [("id", JStr "w1"); ("name", JStr "Acme");
                                   ("url", JStr "acme.com")]]);
          ("crawlConfigs", JArr []); ("prefilledParams", JObj [])].
Proof. vm_compute. reflexivity. Qed.

Example extract_outreach_flatten :
  extractOptions refHost render_outreach_generate_form
    (Str.json "[{'type':'text','text':'{\'sender_group_list\':[{\'sender_group_id\':\'g1\',\'company_details\':{\'name\':\'Initech\'},\'senders\':[{\'id\':\'s1\',\'name\':\'Ann\',\'occupation\':\'CEO\'},{\'id\':\'s2\',\'name\':\'Bob\'}]}]}'}]")
  = JObj [("senders",
           JArr [JObj [("id", JStr "s1"); ("name", JStr "Ann"); ("occupation", JStr "CEO");
                       ("company_name", JStr "Initech"); ("sender_group_id", JStr "g1")];
                 JObj [("id", JStr "s2"); ("name", JStr "Bob"); ("occupation", JUndefined);
                       ("company_name", JStr "Initech"); ("sender_group_id", JStr "g1")]]);
          ("lists", JArr []); ("campaigns", JArr []); ("templates", JArr []);
          ("icps", JArr [])].
Proof. vm_compute. reflexivity. Qed.

Example extract_custom_note :
  extractOptions refHost render_custom_form
    (Str.json "{'form_fields':[{'label':'Start  Date','type':'date'}],'request_id':'r1'}"
     +:+ Str.nl +:+ Str.nl +:+ "NOTE: fill this in")
  = JObj [("formFields", JArr [JObj [("label", JStr "Start  Date"); ("type", JStr "date");
                                     ("id", JStr "start_date")]]);
          ("requestId", JStr "r1"); ("functionToolName", JUndefined);
          ("submitInstructions", JUndefined)].
Proof. vm_compute. reflexivity. Qed.

Example extract_email_fallback :
  emailContentOf refHost ("see ```markdown" +:+ Str.nl +:+ "Hello" +:+ Str.nl +:+ "```" +:+ " end")
  = JStr "Hello".
Proof. vm_compute. reflexivity. Qed.

Example extract_email_nested :
  emailContentOf refHost
    (Str.json "[{'type':'text','text':'[{\'output\':\'```markdown\\nHello\\nWorld\\n```\'}]'}]")
  = JStr ("Hello" +:+ Str.nl +:+ "World").
Proof. vm_compute. reflexivity. Qed.

Example extract_custom_selector :
  extractOptions refHost render_custom_form
    (Str.json "{'form_fields':[{'label':'Plan','type':'selector','options':[{'label':'A','value':'a'}],'default':'a'},{'label':'Agree','type':'bool'}],'function_tool_name':'save'}")
  = JObj [("formFields",
           JArr [JObj [("label", JStr "Plan"); ("type", JStr "selector"); ("id", JStr "plan");
                       ("options", JArr [JObj [("label", JStr "A"); ("value", JStr "a")]]);
                       ("default", JStr "a")];
                 JObj [("label", JStr "Agree"); ("type", JStr "bool"); ("id", JStr "agree")]]);
          ("requestId", JUndefined); ("functionToolName", JStr "save");
          ("submitInstructions", JUndefined)].
Proof. vm_compute. reflexivity. Qed.

Example extract_site_keyword_defaults :
  extractOptions refHost render_load_site_keyword_data_form "{}"
  = JObj [("serviceAccounts", JArr []); ("websites", JArr []);
          ("keywordSources", JArr [JStr "gsc"; JStr "dataforseo"])]
  /\ extractOptions refHost render_load_site_keyword_data_form "null"
     = emptyBundle render_load_site_keyword_data_form.
Proof. vm_compute. split; reflexivity. Qed.

Example extract_prefilled_params :
  extractOptions refHost render_add_crawl_config_form
    (Str.json "[{'type':'text','text':'{\'prefilled_params\':[{\'key\':\'name\',\'value\':\'Shop\'},{\'key\':1,\'value\':true}]}'}]")
  = JObj [("prefilledParams", JObj [("name", JStr "Shop"); ("1", JBool true)])].
Proof. vm_compute. reflexivity. Qed.

Example tool_names :
  toolConfigOf refHost {| toolCall_name := Some "render_crawl_form_mcp_srv_mcp_x";
                          output_prop := None; messageId := None; conversationId := None |}
  = Some (Configured render_crawl_form)
  /\ serverNameOf refHost {| toolCall_name := Some "render_crawl_form_mcp_srv_mcp_x";
                             output_prop := None; messageId := None; conversationId := None |}
     = "srv"
  /\ toolConfigOf refHost {| toolCall_name := Some "toString_mcp_srv";
                             output_prop := None; messageId := None; conversationId := None |}
     = Some Inherited
  /\ toolConfigOf refHost {| toolCall_name := Some "web_search_mcp_srv";
                             output_prop := None; messageId := None; conversationId := None |}
     = None.
Proof. vm_compute. repeat split; reflexivity. Qed.

Example matchUuid_example :
  matchUuid "op 123e4567-e89b-12d3-a456-426614174000 created"
  = Some "123e4567-e89b-12d3-a456-426614174000".
Proof. vm_compute. reflexivity. Qed.

Example matchOperationId_example :
  matchOperationId "{'id':  'ab-12', 'descriptions': 'load it'}" = Some "ab-12"
  /\ matchDescriptions "{'id':  'ab-12', 'descriptions': 'load it'}" = Some "load it"
  /\ matchClusterCount "made 12  Clusters" = Some "12"
  /\ looksLikeDate "2024-01-05T10:00" = true.
Proof. vm_compute. repeat split; reflexivity. Qed.

Example stringify_example :
  JSON_stringify (JObj [("a", JArr [JNum 1; JUndefined; JStr "x"]); ("b", JUndefined);
                        ("c", JBool true)])
  = Str.json "{'a':[1,null,'x'],'c':true}".
Proof. vm_compute. reflexivity. Qed.

(** ** Facts about strings and the request id pattern *)

Module StrFacts.

Import Str.

Lemma sapp_cons (x : ascii) (a b : string) : String x a +:+ b = String x (a +:+ b).
Proof. reflexivity. Qed.

Lemma sapp_nil_l (a : string) : "" +:+ a = a.
Proof. reflexivity. Qed.

Lemma sapp_assoc (a b c : string) : (a +:+ b) +:+ c = a +:+ (b +:+ c).
Proof.
  induction a as [|x a IH]; [reflexivity |].
  rewrite !sapp_cons. now rewrite IH.
Qed.

Lemma slength_app (a b : string) :
  String.length (a +:+ b) = (String.length a + String.length b)%nat.
Proof.
  induction a as [|x a IH]; [reflexivity |].
  rewrite sapp_cons. simpl. now rewrite IH.
Qed.

Lemma stripPrefix_app (p r : string) : stripPrefix p (p +:+ r) = Some r.
Proof.
  induction p as [|a p IH]; [reflexivity |].
  rewrite sapp_cons. simpl. now rewrite Ascii.eqb_refl.
Qed.

Lemma stripPrefix_Some (p s r : string) : stripPrefix p s = Some r -> s = p +:+ r.
Proof.
  revert s; induction p as [|a p IH]; intros s Hs; simpl in Hs.
  - rewrite sapp_nil_l. congruence.
  - destruct s as [|b s]; [discriminate |].
    destruct (Ascii.eqb a b) eqn:E; [| discriminate].
    apply Ascii.eqb_eq in E; subst b. rewrite sapp_cons. f_equal. now apply IH.
Qed.

Lemma stripPrefix_startsWith (p s : string) :
  startsWith p s = false -> stripPrefix p s = None.
Proof.
  revert s; induction p as [|a p IH]; intros s Hs; simpl in *.
  - discriminate.
  - destruct s as [|b s]; [reflexivity |].
    destruct (Ascii.eqb a b); [now apply IH | reflexivity].
Qed.

(** Whether [s] starts with [p] is decided by the first [length p]
    characters of [s]. *)
Lemma startsWith_app_l (p a b : string) :
  (String.length p <= String.length a)%nat ->
  startsWith p (a +:+ b) = startsWith p a.
Proof.
  revert a; induction p as [|x p IH]; intros a Hlen.
  - reflexivity.
  - destruct a as [|y a]; [simpl in Hlen; lia |].
    rewrite sapp_cons. simpl in *.
    destruct (Ascii.eqb x y); [apply IH; lia | reflexivity].
Qed.

Lemma includes_cons (p : string) (c : ascii) (s : string) :
  includes p (String c s) = false ->
  startsWith p (String c s) = false /\ includes p s = false.
Proof.
  intros Hi. simpl in Hi. apply orb_false_iff in Hi. exact Hi.
Qed.

Lemma takeWhile_all (f : ascii -> bool) (tok rest : string) :
  all f tok = true -> headIs f rest = false -> takeWhile f (tok +:+ rest) = tok.
Proof.
  intros Ha Hr. induction tok as [|c tok IH].
  - rewrite sapp_nil_l. destruct rest as [|d rest]; simpl in *; [reflexivity | now rewrite Hr].
  - simpl in Ha. apply andb_true_iff in Ha as [Hc Ha].
    rewrite sapp_cons. simpl. rewrite Hc. f_equal. now apply IH.
Qed.

Lemma search_hit {A : Type} (matchAt : string -> option A) (s : string) (a : A) :
  matchAt s = Some a -> search matchAt s = Some a.
Proof. intros Hm. destruct s; simpl; now rewrite Hm. Qed.

Lemma search_skip {A : Type} (matchAt : string -> option A) (c : ascii) (s : string) :
  matchAt (String c s) = None -> search matchAt (String c s) = search matchAt s.
Proof. intros Hm. simpl. now rewrite Hm. Qed.

(** No match where the marker does not occur. *)
Lemma search_requestId_none (s : string) :
  includes requestIdMarker s = false -> search requestIdAt s = None.
Proof.
  induction s as [|c s IH]; intros Hi.
  - reflexivity.
  - apply includes_cons in Hi as [Hs Hi].
    rewrite search_skip; [now apply IH |].
    unfold requestIdAt. now rewrite (stripPrefix_startsWith _ _ Hs).
Qed.

Lemma requestIdAt_token (tok post : string) :
  tok <> "" -> all is_hex_dash tok = true -> headIs is_hex_dash post = false ->
  requestIdAt (requestIdMarker +:+ tok +:+ post) = Some tok.
Proof.
  intros Hne Ha Hp. unfold requestIdAt.
  rewrite stripPrefix_app. simpl.
  rewrite (takeWhile_all _ _ _ Ha Hp).
  destruct tok; [congruence | reflexivity].
Qed.

(** The first occurrence of the marker decides the match. *)
Lemma search_requestId_first (pre tok post : string) :
  includes requestIdMarker (pre +:+ markerStem) = false ->
  tok <> "" -> all is_hex_dash tok = true -> headIs is_hex_dash post = false ->
  search requestIdAt (pre +:+ requestIdMarker +:+ tok +:+ post) = Some tok.
Proof.
  intros Hpre Hne Ha Hp. induction pre as [|c pre IH].
  - rewrite sapp_nil_l. apply search_hit. now apply requestIdAt_token.
  - rewrite sapp_cons in Hpre. apply includes_cons in Hpre as [Hs Hi].
    rewrite sapp_cons, search_skip; [now apply IH |].
    unfold requestIdAt. rewrite stripPrefix_startsWith; [reflexivity |].
    replace (String c (pre +:+ requestIdMarker +:+ tok +:+ post))
      with (String c (pre +:+ markerStem) +:+ (":" +:+ tok +:+ post)).
    + rewrite startsWith_app_l; [exact Hs |].
      simpl. rewrite slength_app. simpl. lia.
    + rewrite sapp_cons. f_equal. rewrite (sapp_assoc pre markerStem). reflexivity.
Qed.

End StrFacts.

(** ** Request identity *)

Import StrFacts.

Lemma requestIdOf_marker (pre tok post : string) :
  Str.includes requestIdMarker (pre +:+ markerStem) = false ->
  tok <> "" -> all Str.is_hex_dash tok = true -> headIs Str.is_hex_dash post = false ->
  requestIdOf (Some (pre +:+ requestIdMarker +:+ tok +:+ post)) = Some tok.
Proof.
  intros Hpre Hne Ha Hp. unfold requestIdOf.
  rewrite (search_requestId_first pre tok post Hpre Hne Ha Hp).
  destruct pre; reflexivity.
Qed.

Lemma requestIdOf_no_marker (out : string) :
  Str.includes requestIdMarker out = false -> requestIdOf (Some out) = None.
Proof.
  intros Hi. unfold requestIdOf.
  destruct (Str.isEmpty out); [reflexivity | now apply search_requestId_none].
Qed.

(** C3, as stated, fails: with an empty conversation id the id starts with
    [no-conv], and the last part of the fallback id is the function name,
    not the tool name with its server. *)
Lemma formId_defaults_counterexample :
  formIdOf refHost {| toolCall_name := Some "render_crawl_form_mcp_srv";
                      output_prop := Some "request_id::abc-123-def";
                      messageId := Some "m1"; conversationId := Some "" |}
  <> "" +:+ "-" +:+ "abc-123-def"
  /\ formIdOf refHost {| toolCall_name := Some "render_crawl_form_mcp_srv";
                         output_prop := Some "no marker here";
                         messageId := Some "m1"; conversationId := Some "conv1" |}
     <> "conv1" +:+ "-" +:+ "m1" +:+ "-" +:+ "render_crawl_form_mcp_srv".
Proof. split; vm_compute; discriminate. Qed.

(** C3 (amended).  The form id is a function of the output, the
    conversation id, the message id and the tool name alone.  Write [c] for
    the conversation id, or [no-conv] when it is empty or absent, and [m]
    for the message id, or [no-msg] when it is empty or absent.  When the
    output holds the marker [request_id::] followed by a non-empty token of
    the characters [a-f], [0-9] and [-] (at the first occurrence of the
    marker, the token taken as long as possible), the id is [c-token],
    whatever the message id and the tool name are.  When the output does
    not hold the marker, or there is no output, the id is
    [c-m-functionName], where the function name is the part of the tool
    name before the delimiter. *)
Theorem formId_resolution (H : Host) (p : Props) :
  (forall pre tok post p',
      output_prop p = Some (pre +:+ requestIdMarker +:+ tok +:+ post) ->
      Str.includes requestIdMarker (pre +:+ markerStem) = false ->
      tok <> "" -> all Str.is_hex_dash tok = true -> headIs Str.is_hex_dash post = false ->
      output_prop p' = output_prop p -> conversationId p' = conversationId p ->
      formIdOf H p' = conversationKey p +:+ "-" +:+ tok)
  /\ ((output_prop p = None \/
       exists out, output_prop p = Some out /\ Str.includes requestIdMarker out = false) ->
      formIdOf H p
      = conversationKey p +:+ "-" +:+ orElse (messageId p) "no-msg" +:+ "-" +:+ functionNameOf H p)
  /\ (forall c, conversationId p = Some c -> c <> "" -> conversationKey p = c)
  /\ (forall m, messageId p = Some m -> m <> "" -> orElse (messageId p) "no-msg" = m)
  /\ (forall p', toolCall_name p' = toolCall_name p -> output_prop p' = output_prop p ->
                 messageId p' = messageId p -> conversationId p' = conversationId p ->
                 formIdOf H p' = formIdOf H p).
Proof.
  repeat split.
  - intros pre tok post p' Hout Hpre Hne Ha Hp Ho' Hc'.
    unfold formIdOf, conversationKey. rewrite Ho', Hc', Hout.
    now rewrite (requestIdOf_marker pre tok post Hpre Hne Ha Hp).
  - intros [Hnone | (out & Hout & Hi)]; unfold formIdOf.
    + now rewrite Hnone.
    + now rewrite Hout, (requestIdOf_no_marker out Hi).
  - intros c Hc Hne. unfold conversationKey. rewrite Hc. destruct c; [congruence | reflexivity].
  - intros m Hm Hne. rewrite Hm. destruct m; [congruence | reflexivity].
  - intros p' Hn Ho Hm Hc. destruct p, p'; simpl in *. now subst.
Qed.

(** Scenario D: the id is [conv1-abc-123-def]. *)
Lemma formId_resolution_witness :
  formIdOf refHost scenarioD = "conv1" +:+ "-" +:+ "abc-123-def".
Proof.
  apply (proj1 (formId_resolution refHost scenarioD) "ok " "abc-123-def" " done" scenarioD);
    try reflexivity.
  discriminate.
Defined.

(** ** Tool names without the delimiter *)

Lemma toolConfigOf_no_delimiter (H : Host) (p : Props) :
  (forall n, toolCall_name p = Some n -> Str.includes (mcp_delimiter H) n = false) ->
  toolConfigOf H p = None.
Proof.
  intros Hn. unfold toolConfigOf, parseToolName.
  destruct (toolCall_name p) as [n|]; [| reflexivity].
  destruct (Str.isEmpty n); [reflexivity |].
  now rewrite (Hn n eq_refl).
Qed.

(** C10.  When the tool name does not contain the MCP delimiter, no form
    configuration is resolved, even if the name is that of a configured
    function: the component renders nothing, and neither its trigger effect
    (on mount or on a later render) nor its cleanup changes the store, the
    blocked flags or the trace. *)
Theorem no_delimiter_no_form (H : Host) (p : Props) (w : World)
  (lastDeps : option TriggerDeps) :
  (forall n, toolCall_name p = Some n -> Str.includes (mcp_delimiter H) n = false) ->
  toolConfigOf H p = None
  /\ render H p w = RenderNull
  /\ triggerEffect H p w = w
  /\ snd (renderTrigger H lastDeps p w) = w
  /\ cleanupEffect H p w = w.
Proof.
  intros Hn. pose proof (toolConfigOf_no_delimiter H p Hn) as Hc.
  unfold render, renderTrigger, triggerEffect, cleanupEffect. rewrite Hc.
  repeat split; try reflexivity.
  now destruct (decide (lastDeps = Some (triggerDeps H p))).
Qed.

(** The bare name of a configured function resolves to no configuration. *)
Lemma no_delimiter_no_form_witness :
  let p := {| toolCall_name := Some "render_crawl_form";
              output_prop := output_prop scenarioA;
              messageId := Some "m1"; conversationId := Some "conv1" |} in
  toolConfigOf refHost p = None
  /\ render refHost p emptyWorld = RenderNull
  /\ triggerEffect refHost p emptyWorld = emptyWorld
  /\ snd (renderTrigger refHost None p emptyWorld) = emptyWorld
  /\ cleanupEffect refHost p emptyWorld = emptyWorld.
Proof.
  apply (no_delimiter_no_form refHost).
  intros n Hn. injection Hn as <-. reflexivity.
Defined.

(** ** Cancellation *)



Example scenarioA_opens_form :
  let w := triggerEffect refHost scenarioA emptyWorld in
  formIdOf refHost scenarioA = "conv1-m1-render_crawl_form"
  /\ isPending (thisFormState refHost scenarioA w) = true
  /\ isChatBlocked w !! "conv1" = Some true
  /\ formType (thisFormState refHost scenarioA w) = Some Crawl.
Proof. vm_compute. repeat split; reflexivity. Qed.

(** ** Teardown while pending *)

(** C9.  When a component that resolved a form configuration is torn down
    while the record of its form is still pending, the cleanup releases the
    lock of its conversation and does nothing else: the store of records is
    the same map, so the record is still there and still pending. *)
Theorem unmount_pending (H : Host) (p : Props) (w : World) (t : ToolName) (r : FormRecord) :
  toolConfigOf H p = Some (Configured t) ->
  submittedForms w !! formIdOf H p = Some r ->
  isPending r = true ->
  let w' := cleanupEffect H p w in
  submittedForms w' = submittedForms w
  /\ submittedForms w' !! formIdOf H p = Some r
  /\ isChatBlocked w' !! conversationKey p = Some false
  /\ (forall c, c <> conversationKey p -> isChatBlocked w' !! c = isChatBlocked w !! c)
  /\ trace w' = (trace w ++ [SetChatBlocked (conversationKey p) false])%list.
Proof.
  intros Hc Hr Hpend w'. subst w'. unfold cleanupEffect, thisFormState.
  rewrite Hc, Hr. cbn [default from_option id].
  unfold isPending in Hpend. apply andb_true_iff in Hpend as [Hs _].
  rewrite Hs. unfold setChatBlocked. cbn [submittedForms isChatBlocked trace].
  repeat split.
  - exact Hr.
  - apply lookup_insert_eq.
  - intros c Hne. now apply lookup_insert_ne.
Qed.

(** The form opened in scenario A is torn down before the user acts. *)
Lemma unmount_pending_witness :
  let w := triggerEffect refHost scenarioA emptyWorld in
  let w' := cleanupEffect refHost scenarioA w in
  submittedForms w' = submittedForms w
  /\ submittedForms w' !! formIdOf refHost scenarioA = Some (thisFormState refHost scenarioA w)
  /\ isChatBlocked w' !! conversationKey scenarioA = Some false
  /\ (forall c, c <> conversationKey scenarioA -> isChatBlocked w' !! c = isChatBlocked w !! c)
  /\ trace w' = (trace w ++ [SetChatBlocked (conversationKey scenarioA) false])%list.
Proof.
  apply (unmount_pending refHost scenarioA (triggerEffect refHost scenarioA emptyWorld)
           render_crawl_form
           (thisFormState refHost scenarioA (triggerEffect refHost scenarioA emptyWorld))).
  - vm_compute. reflexivity.
  - vm_compute. reflexivity.
  - vm_compute. reflexivity.
Defined.

(** ** Submission: order of the effects *)

Lemma handleFormSubmit_trace (H : Host) (p : Props) (data : JSValue) (w : World) :
  trace (handleFormSubmit H p data w)
  = (trace w ++
     match submittedDataWithLabels H (formTypeOf H p) (thisFormState H p w) data with
     | None => []
     | Some labelled =>
         SetSubmittedForms (formIdOf H p) (asSubmitted (thisFormState H p w) labelled)
         :: match synthesizeMessage H (formTypeOf H p) (thisFormState H p w) data with
            | None => []
            | Some message =>
                [SubmitMessage message; SetChatBlocked (conversationKey p) false]
            end
     end)%list.
Proof.
  unfold handleFormSubmit.
  destruct (submittedDataWithLabels H (formTypeOf H p) (thisFormState H p w) data)
    as [labelled|]; [| now rewrite app_nil_r].
  destruct (synthesizeMessage H (formTypeOf H p) (thisFormState H p w) data) as [message|];
    unfold setChatBlocked, submitMessage, emit, setSubmittedForms, thisFormState;
    cbn [submittedForms isChatBlocked trace]; fold (thisFormState H p w);
    unfold asSubmitted; [now rewrite <- !app_assoc | reflexivity].
Qed.

(** C7.  In the submission of a pending form, the update of the store that
    marks the record submitted and stores the labelled data is made
    strictly before the message is handed to the conversation transport:
    every message in the events of the handler comes after that update, and
    when labels and message are computed without an exception the events
    are exactly the update, the message and the release of the lock, in
    this order. *)
Theorem mark_before_dispatch (H : Host) (p : Props) (data : JSValue) (w : World)
  (r : FormRecord) :
  submittedForms w !! formIdOf H p = Some r ->
  isPending r = true ->
  exists events,
    trace (handleFormSubmit H p data w) = (trace w ++ events)%list
    /\ (forall i text,
          events !! i = Some (SubmitMessage text) ->
          exists j labelled,
            (j < i)%nat
            /\ events !! j = Some (SetSubmittedForms (formIdOf H p) (asSubmitted r labelled))
            /\ submittedDataWithLabels H (formTypeOf H p) r data = Some labelled)
    /\ (forall labelled message,
          submittedDataWithLabels H (formTypeOf H p) r data = Some labelled ->
          synthesizeMessage H (formTypeOf H p) r data = Some message ->
          events = [SetSubmittedForms (formIdOf H p) (asSubmitted r labelled);
                    SubmitMessage message;
                    SetChatBlocked (conversationKey p) false]
          /\ submittedForms (handleFormSubmit H p data w) !! formIdOf H p
             = Some (asSubmitted r labelled)).
Proof.
  intros Hr Hpend.
  assert (Hst : thisFormState H p w = r) by (unfold thisFormState; now rewrite Hr).
  eexists. split; [apply handleFormSubmit_trace |]. rewrite Hst.
  split.
  - intros i text Hi.
    destruct (submittedDataWithLabels H (formTypeOf H p) r data) as [labelled|];
      [| now rewrite lookup_nil in Hi].
    exists 0%nat, labelled.
    destruct i as [|i]; [discriminate Hi |].
    split; [lia | split; reflexivity].
  - intros labelled message Hl Hm. rewrite Hl, Hm. split; [reflexivity |].
    unfold handleFormSubmit. rewrite Hst, Hl, Hm.
    unfold setChatBlocked, submitMessage, emit, setSubmittedForms.
    cbn [submittedForms isChatBlocked trace]. rewrite Hr. cbn [default from_option id].
    apply lookup_insert_eq.
Qed.

Example scenarioA_submit_message :
  messagesOf (trace (handleFormSubmit refHost scenarioA crawlData
                       (triggerEffect refHost scenarioA emptyWorld)))
  = ["I have submitted the crawl configuration with the following details:"
     +:+ Str.nl +:+ Str.nl +:+ "🌐 **Website:** Acme (acme.com)"
     +:+ Str.nl +:+ "⚙️ **Crawl Config:** Default Configuration"
     +:+ Str.nl +:+ "📅 **Launch Date:** Not specified"
     +:+ Str.nl +:+ "📝 **Description:** Weekly crawl"].
Proof. vm_compute. reflexivity. Qed.

(** The form opened in scenario A is submitted. *)
Lemma mark_before_dispatch_witness :
  let w := triggerEffect refHost scenarioA emptyWorld in
  let r := thisFormState refHost scenarioA w in
  exists events,
    trace (handleFormSubmit refHost scenarioA crawlData w) = (trace w ++ events)%list
    /\ (forall i text,
          events !! i = Some (SubmitMessage text) ->
          exists j labelled,
            (j < i)%nat
            /\ events !! j
               = Some (SetSubmittedForms (formIdOf refHost scenarioA) (asSubmitted r labelled))
            /\ submittedDataWithLabels refHost (formTypeOf refHost scenarioA) r crawlData
               = Some labelled)
    /\ (forall labelled message,
          submittedDataWithLabels refHost (formTypeOf refHost scenarioA) r crawlData
          = Some labelled ->
          synthesizeMessage refHost (formTypeOf refHost scenarioA) r crawlData = Some message ->
          events = [SetSubmittedForms (formIdOf refHost scenarioA) (asSubmitted r labelled);
                    SubmitMessage message;
                    SetChatBlocked (conversationKey scenarioA) false]
          /\ submittedForms (handleFormSubmit refHost scenarioA crawlData w)
               !! formIdOf refHost scenarioA
             = Some (asSubmitted r labelled)).
Proof.
  apply (mark_before_dispatch refHost scenarioA crawlData
           (triggerEffect refHost scenarioA emptyWorld)
           (thisFormState refHost scenarioA (triggerEffect refHost scenarioA emptyWorld))).
  - vm_compute. reflexivity.
  - vm_compute. reflexivity.
Defined.

(** ** Label resolution *)



Lemma lookup_setProp_eq (k : string) (v : JSValue) (props : list (string * JSValue)) :
  JS.lookup k (JS.setProp k v props) = Some v.
Proof.
  induction props as [|[k' v'] props IH]; cbn [JS.setProp JS.lookup].
  - now rewrite String.eqb_refl.
  - destruct (String.eqb k k') eqn:E; cbn [JS.lookup]; rewrite ?String.eqb_refl, ?E; auto.
Qed.

Lemma lookup_setProp_ne (k k' : string) (v : JSValue) (props : list (string * JSValue)) :
  k <> k' -> JS.lookup k (JS.setProp k' v props) = JS.lookup k props.
Proof.
  intros Hne. induction props as [|[k2 v2] props IH]; cbn [JS.setProp JS.lookup].
  - apply String.eqb_neq in Hne. now rewrite Hne.
  - destruct (String.eqb k' k2) eqn:E; cbn [JS.lookup].
    + apply String.eqb_eq in E; subst k2. apply String.eqb_neq in Hne. now rewrite Hne.
    + destruct (String.eqb k k2); [reflexivity | exact IH].
Qed.














Example scenarioA_labels :
  submittedData (thisFormState refHost scenarioA
                   (handleFormSubmit refHost scenarioA crawlData
                      (triggerEffect refHost scenarioA emptyWorld)))
  = JObj [("website_id", JStr "w1"); ("launch_date", JStr "");
          ("description", JStr "Weekly crawl"); ("crawl_config_id", JStr "default");
          ("websiteLabel", JStr "Acme (acme.com)");
          ("crawlConfigLabel", JStr "Default Configuration")].
Proof. vm_compute. reflexivity. Qed.

(** ** Two-phase upload: compensation *)





Example scenarioE_trace :
  trace (handleSubmit refHost (handleFormSubmit refHost scenarioE) formE "srv" networkE
           emptyWorld)
  = [CallTool "create_crawl_config_mcp_srv"
       (JObj [("name", JStr "Shop"); ("description", JUndefined)]);
     PutFile "https://x";
     CallTool "delete_crawl_config_mcp_srv" (JObj [("id", JStr "cfg1")]);
     SetSubmittedForms "conv1-m7-render_add_crawl_config_form"
       {| isSubmitted := true; isCancelled := None; toolName := None; serverName := None;
          requestId := None; options := JUndefined; output := None; formType := None;
          submittedData :=
            JObj [("name", JStr "Shop"); ("description", JStr "");
                  ("file", JObj [("name", JStr "shop.seospiderconfig")]);
                  ("toolResponse",
                   JObj [("error", JStr "Upload failed: 500 - Internal Server Error")]);
                  ("fileName", JStr "shop.seospiderconfig")] |};
     SubmitMessage
       ("I have created the crawl configuration:"
        +:+ Str.nl +:+ Str.nl +:+ "📝 **Name:** Shop"
        +:+ Str.nl +:+ "📄 **File:** shop.seospiderconfig"
        +:+ Str.nl +:+ "💬 **Description:** Not specified"
        +:+ Str.nl +:+ Str.nl +:+ "❌ **Status:** Failed"
        +:+ Str.nl +:+ "⚠️ **Error:** Upload failed: 500 - Internal Server Error");
     SetChatBlocked "conv1" false].
Proof. vm_compute. reflexivity. Qed.

(** ** Empty bundles and the validity gate *)

Lemma hasData_emptyValue (v : JSValue) : hasData v = negb (emptyValue v).
Proof.
  destruct v as [| |[|]|[| |]|[|]|[|]|]; reflexivity.
Qed.






(** ** Totality of the parsers *)





(** ** Recurrence of a tool-call event *)





(** * Further properties of the detector *)

(** ** More facts on strings *)

Module StrMore.

Import Str.

Lemma takeWhile_dropWhile (f : ascii -> bool) (s : string) :
  takeWhile f s +:+ dropWhile f s = s.
Proof.
  induction s as [|c s IH]; [reflexivity |].
  simpl. destruct (f c); [| reflexivity].
  rewrite sapp_cons. now rewrite IH.
Qed.

Lemma all_takeWhile (f : ascii -> bool) (s : string) : all f (takeWhile f s) = true.
Proof.
  induction s as [|c s IH]; [reflexivity |].
  simpl. destruct (f c) eqn:E; [| reflexivity].
  simpl. now rewrite E.
Qed.

Lemma headIs_dropWhile (f : ascii -> bool) (s : string) : headIs f (dropWhile f s) = false.
Proof.
  induction s as [|c s IH]; [reflexivity |].
  simpl. destruct (f c) eqn:E; [exact IH | simpl; exact E].
Qed.

Lemma sapp_inv_l (a b c : string) : a +:+ b = a +:+ c -> b = c.
Proof.
  induction a as [|x a IH]; [now rewrite !sapp_nil_l |].
  rewrite !sapp_cons. intros Heq. injection Heq as Heq. now apply IH.
Qed.

Lemma isEmpty_false (s : string) : isEmpty s = false <-> s <> "".
Proof. destruct s; simpl; split; congruence. Qed.

Lemma startsWith_split (p s : string) :
  startsWith p s = true -> s = p +:+ drop (String.length p) s.
Proof.
  revert s; induction p as [|a p IH]; intros s Hs.
  - now rewrite sapp_nil_l.
  - destruct s as [|b s]; [discriminate |]. simpl in Hs.
    destruct (Ascii.eqb a b) eqn:E; [| discriminate].
    apply Ascii.eqb_eq in E; subst b. rewrite sapp_cons. simpl. f_equal. now apply IH.
Qed.

Lemma startsWith_app (p r : string) : startsWith p (p +:+ r) = true.
Proof.
  induction p as [|a p IH]; [reflexivity |].
  rewrite sapp_cons. simpl. now rewrite Ascii.eqb_refl.
Qed.

(** A prefix of a prefix. *)
Lemma startsWith_take (p s : string) (n : nat) :
  startsWith p (take n s) = true -> startsWith p s = true.
Proof.
  revert s n; induction p as [|a p IH]; intros s n Hs; [reflexivity |].
  destruct n as [|n], s as [|b s]; try discriminate Hs.
  simpl in *. destruct (Ascii.eqb a b); [now apply (IH s n) | discriminate].
Qed.

Lemma str_take_drop (n : nat) (s : string) : take n s +:+ drop n s = s.
Proof.
  revert s; induction n as [|n IH]; intros s; [now destruct s |].
  destruct s as [|c s]; [reflexivity |].
  simpl. rewrite sapp_cons. now rewrite IH.
Qed.

(** [indexOf] finds an occurrence: the text splits around it. *)
Lemma indexOf_split (m s : string) (i : nat) :
  indexOf m s = Some i ->
  s = take i s +:+ m +:+ drop (i + String.length m) s
  /\ startsWith m (drop i s) = true.
Proof.
  revert i; induction s as [|c s IH]; intros i Hi; simpl in Hi.
  - destruct (startsWith m "") eqn:E; [| discriminate].
    injection Hi as <-. destruct m; [split; reflexivity | discriminate].
  - destruct (startsWith m (String c s)) eqn:E.
    + injection Hi as <-. split; [| exact E].
      change (take 0 (String c s)) with "". rewrite sapp_nil_l.
      now apply startsWith_split.
    + destruct (indexOf m s) as [j|] eqn:Ej; [| discriminate].
      injection Hi as <-. destruct (IH j eq_refl) as [Hs Hd].
      split; [| exact Hd]. simpl. rewrite sapp_cons. f_equal. exact Hs.
Qed.

(** Before the first occurrence there is none. *)
Lemma indexOf_first (m s : string) (i : nat) :
  m <> "" -> indexOf m s = Some i -> includes m (take i s) = false.
Proof.
  intros Hm. revert i; induction s as [|c s IH]; intros i Hi; simpl in Hi.
  - destruct m; [congruence | discriminate].
  - destruct (startsWith m (String c s)) eqn:E.
    + injection Hi as <-. simpl. destruct m; [congruence | reflexivity].
    + destruct (indexOf m s) as [j|] eqn:Ej; [| discriminate].
      injection Hi as <-. cbn [take includes].
      apply orb_false_iff. split; [| now apply IH].
      destruct (startsWith m (String c (take j s))) eqn:E'; [| reflexivity].
      apply (startsWith_take m (String c s) (S j)) in E'. congruence.
Qed.

Lemma indexOf_None (m s : string) : indexOf m s = None <-> includes m s = false.
Proof.
  induction s as [|c s IH]; simpl.
  - destruct (startsWith m ""); simpl; split; intros; congruence.
  - destruct (startsWith m (String c s)); [simpl; split; intros; discriminate |].
    simpl. rewrite <- IH. destruct (indexOf m s); simpl; split; intros; congruence.
Qed.

Lemma indexOf_0 (m s : string) : indexOf m s = Some 0%nat <-> startsWith m s = true.
Proof.
  destruct s as [|c s]; simpl.
  - destruct (startsWith m ""); split; intros; congruence.
  - destruct (startsWith m (String c s)); [split; reflexivity |].
    destruct (indexOf m s); simpl; split; intros; discriminate.
Qed.

Lemma includes_startsWith (m s : string) : startsWith m s = true -> includes m s = true.
Proof. intros Hs. destruct s; simpl; now rewrite Hs. Qed.


End StrMore.

Import StrMore.

(** ** The request token *)

(** A match of the request id pattern lies in the text: the marker, then
    the token, then something that does not continue the token. *)
Lemma search_requestId_Some (s tok : string) :
  search requestIdAt s = Some tok ->
  exists pre post,
    s = pre +:+ requestIdMarker +:+ tok +:+ post
    /\ tok <> ""
    /\ all Str.is_hex_dash tok = true
    /\ headIs Str.is_hex_dash post = false.
Proof.
  induction s as [|c s IH]; intros Hs.
  - discriminate Hs.
  - cbn [search] in Hs.
    destruct (requestIdAt (String c s)) as [tok'|] eqn:E.
    + injection Hs as ->. unfold requestIdAt in E.
      destruct (Str.stripPrefix requestIdMarker (String c s)) as [rest|] eqn:Er;
        [| discriminate E].
      cbn [mbind option_bind] in E.
      destruct (Str.isEmpty (Str.takeWhile Str.is_hex_dash rest)) eqn:Ee; [discriminate E |].
      injection E as <-. apply stripPrefix_Some in Er.
      exists "", (Str.dropWhile Str.is_hex_dash rest). rewrite sapp_nil_l.
      repeat split.
      * rewrite Er. f_equal. symmetry. apply takeWhile_dropWhile.
      * now apply isEmpty_false.
      * apply all_takeWhile.
      * apply headIs_dropWhile.
    + destruct (IH Hs) as (pre & post & -> & Hne & Ha & Hp).
      exists (String c pre), post. rewrite sapp_cons. repeat split; assumption.
Qed.

(** X1.  a resolved request token is never empty, consists of the characters
    [a-f], [0-9] and [-] only, stands in the output right after the marker
    [request_id::], and is not continued by a further character of its
    class. *)
Theorem requestId_token_shape (out tok : string) :
  requestIdOf (Some out) = Some tok ->
  exists pre post,
    out = pre +:+ requestIdMarker +:+ tok +:+ post
    /\ tok <> ""
    /\ all Str.is_hex_dash tok = true
    /\ headIs Str.is_hex_dash post = false.
Proof.
  unfold requestIdOf. destruct (Str.isEmpty out); [discriminate |].
  apply search_requestId_Some.
Qed.

Lemma requestId_token_shape_witness :
  exists pre post,
    "ok request_id::abc-123-def done" = pre +:+ requestIdMarker +:+ "abc-123-def" +:+ post
    /\ "abc-123-def" <> ""
    /\ all Str.is_hex_dash "abc-123-def" = true
    /\ headIs Str.is_hex_dash post = false.
Proof.
  apply (requestId_token_shape "ok request_id::abc-123-def done" "abc-123-def").
  vm_compute. reflexivity.
Defined.

(** X2.  within one conversation, two tool calls whose outputs carry request
    tokens have the same form id exactly when the tokens are equal; message
    ids and tool names play no part. *)
Theorem formId_same_conversation (H : Host) (p q : Props) (t1 t2 : string) :
  conversationKey p = conversationKey q ->
  requestIdOf (output_prop p) = Some t1 ->
  requestIdOf (output_prop q) = Some t2 ->
  formIdOf H p = formIdOf H q <-> t1 = t2.
Proof.
  intros Hc H1 H2. unfold formIdOf. rewrite H1, H2, Hc. split.
  - intros Heq. apply sapp_inv_l in Heq. now apply sapp_inv_l in Heq.
  - now intros ->.
Qed.

Lemma formId_same_conversation_witness :
  let q := {| toolCall_name := Some "render_crawl_form_mcp_other";
              output_prop := Some "request_id::abc-123-def";
              messageId := Some "m9";
              conversationId := Some "conv1" |} in
  formIdOf refHost scenarioD = formIdOf refHost q <-> "abc-123-def" = "abc-123-def".
Proof.
  apply (formId_same_conversation refHost scenarioD
           {| toolCall_name := Some "render_crawl_form_mcp_other";
              output_prop := Some "request_id::abc-123-def";
              messageId := Some "m9";
              conversationId := Some "conv1" |}).
  - reflexivity.
  - vm_compute. reflexivity.
  - vm_compute. reflexivity.
Defined.

(** ** Isolation of forms and conversations *)

Lemma touchesOnly_refl (formId conversation : string) (w : World) :
  touchesOnly formId conversation w w.
Proof. repeat split. exists []. now rewrite app_nil_r. Qed.

Lemma touchesOnly_trans (formId conversation : string) (w1 w2 w3 : World) :
  touchesOnly formId conversation w1 w2 -> touchesOnly formId conversation w2 w3 ->
  touchesOnly formId conversation w1 w3.
Proof.
  intros (Hf1 & Hc1 & e1 & He1) (Hf2 & Hc2 & e2 & He2). repeat split.
  - intros id Hid. now rewrite Hf2, Hf1.
  - intros c Hc. now rewrite Hc2, Hc1.
  - exists (e1 ++ e2)%list. now rewrite He2, He1, app_assoc.
Qed.

Lemma touchesOnly_setChatBlocked (formId conversation : string) (b : bool) (w : World) :
  touchesOnly formId conversation w (setChatBlocked conversation b w).
Proof.
  repeat split.
  - intros c Hc. cbn. now apply lookup_insert_ne.
  - now eexists.
Qed.

Lemma touchesOnly_setSubmittedForms (formId conversation : string)
  (update : FormRecord -> FormRecord) (w : World) :
  touchesOnly formId conversation w (setSubmittedForms formId update w).
Proof.
  repeat split.
  - intros id Hid. cbn. now apply lookup_insert_ne.
  - now eexists.
Qed.

Lemma touchesOnly_emit (formId conversation : string) (e : Event) (w : World) :
  touchesOnly formId conversation w (emit e w).
Proof. repeat split. now eexists. Qed.

Create HintDb touches.

#[local] Hint Resolve touchesOnly_refl touchesOnly_setChatBlocked
  touchesOnly_setSubmittedForms touchesOnly_emit : touches.

(** X3.  whatever the store holds and whatever is submitted, the trigger
    effect, the cleanup, the submit handler and the cancel handler of a
    detector change no record but the one of its own form id and no blocked
    flag but the one of its own conversation, and never remove or reorder
    an effect already made. *)
Theorem detector_isolation (H : Host) (p : Props) (data : JSValue) (w : World) :
  touchesOnly (formIdOf H p) (conversationKey p) w (triggerEffect H p w)
  /\ touchesOnly (formIdOf H p) (conversationKey p) w (cleanupEffect H p w)
  /\ touchesOnly (formIdOf H p) (conversationKey p) w (handleFormSubmit H p data w)
  /\ touchesOnly (formIdOf H p) (conversationKey p) w (handleFormCancel H p w).
Proof.
  split; [| split; [| split]].
  - unfold triggerEffect. repeat case_match; auto with touches.
    eapply touchesOnly_trans;
      [apply touchesOnly_setChatBlocked | apply touchesOnly_setSubmittedForms].
  - unfold cleanupEffect. repeat case_match; auto with touches.
  - unfold handleFormSubmit, submitMessage. repeat case_match; auto with touches.
    eapply touchesOnly_trans; [apply touchesOnly_setSubmittedForms |].
    eapply touchesOnly_trans; [apply touchesOnly_emit | apply touchesOnly_setChatBlocked].
  - unfold handleFormCancel, submitMessage.
    eapply touchesOnly_trans; [apply touchesOnly_setSubmittedForms |].
    eapply touchesOnly_trans; [apply touchesOnly_emit | apply touchesOnly_setChatBlocked].
Qed.

(** ** Opening a form *)

Lemma hasValidOptions_data (bundle : JSValue) :
  hasValidOptions bundle = negb (allEmptyOrFalsy bundle).
Proof.
  destruct bundle as [| | | | |items|props]; try reflexivity.
  - now destruct items.
  - cbn [hasValidOptions allEmptyOrFalsy].
    induction props as [|[k v] props IH]; [reflexivity |].
    cbn [forallb existsb snd List.length Nat.eqb negb andb] in *.
    rewrite hasData_emptyValue. destruct (emptyValue v); cbn [negb orb andb]; [| reflexivity].
    destruct props; [reflexivity | exact IH].
Qed.

(** X4.  for a configured tool and a non-empty output, as soon as one field
    of the extracted bundle is a non-empty list, a truthy scalar or an
    object, the trigger effect opens the form: it first sets the blocked
    flag of the conversation, then writes the record of the form, which is
    pending and carries the bundle, the output, the function and server
    names, the form type and the request token; it makes no other effect,
    and it overwrites whatever record the form id had. *)
Theorem form_opens_on_data (H : Host) (p : Props) (w : World) (t : ToolName) (out : string) :
  toolConfigOf H p = Some (Configured t) ->
  output_prop p = Some out ->
  out <> "" ->
  allEmptyOrFalsy (extractOptions H t out) = false ->
  let w' := triggerEffect H p w in
  let r := thisFormState H p w' in
  submittedForms w' !! formIdOf H p = Some r
  /\ isPending r = true
  /\ options r = extractOptions H t out
  /\ output r = Some out
  /\ toolName r = Some (functionNameOf H p)
  /\ serverName r = Some (serverNameOf H p)
  /\ formType r = Some (configFormType t)
  /\ requestId r = requestIdOf (Some out)
  /\ submittedData r = JUndefined
  /\ isChatBlocked w' !! conversationKey p = Some true
  /\ trace w' = (trace w ++ [SetChatBlocked (conversationKey p) true;
                             SetSubmittedForms (formIdOf H p) r])%list
  /\ render H p w' = RenderForm (configFormType t) true r.
Proof.
  intros Hc Ho Hne Hdata w' r. subst r w'.
  unfold render, thisFormState, triggerEffect. rewrite Hc, Ho.
  apply isEmpty_false in Hne. rewrite Hne.
  rewrite hasValidOptions_data, Hdata. cbn [negb].
  unfold setSubmittedForms, setChatBlocked. cbn [submittedForms isChatBlocked trace].
  rewrite !lookup_insert_eq. cbn [default from_option id].
  repeat split; try apply lookup_insert_eq.
  now rewrite <- app_assoc.
Qed.

Lemma form_opens_on_data_witness :
  let w' := triggerEffect refHost scenarioA emptyWorld in
  let r := thisFormState refHost scenarioA w' in
  submittedForms w' !! formIdOf refHost scenarioA = Some r
  /\ isPending r = true
  /\ options r = extractOptions refHost render_crawl_form
                   (Str.json "{'websites':[{'id':'w1','name':'Acme','url':'acme.com'}]}")
  /\ output r = Some (Str.json "{'websites':[{'id':'w1','name':'Acme','url':'acme.com'}]}")
  /\ toolName r = Some (functionNameOf refHost scenarioA)
  /\ serverName r = Some (serverNameOf refHost scenarioA)
  /\ formType r = Some (configFormType render_crawl_form)
  /\ requestId r
     = requestIdOf (Some (Str.json "{'websites':[{'id':'w1','name':'Acme','url':'acme.com'}]}"))
  /\ submittedData r = JUndefined
  /\ isChatBlocked w' !! conversationKey scenarioA = Some true
  /\ trace w' = (trace emptyWorld ++ [SetChatBlocked (conversationKey scenarioA) true;
                                      SetSubmittedForms (formIdOf refHost scenarioA) r])%list
  /\ render refHost scenarioA w' = RenderForm (configFormType render_crawl_form) true r.
Proof.
  apply (form_opens_on_data refHost scenarioA emptyWorld render_crawl_form
           (Str.json "{'websites':[{'id':'w1','name':'Acme','url':'acme.com'}]}")).
  - vm_compute. reflexivity.
  - vm_compute. reflexivity.
  - vm_compute. discriminate.
  - vm_compute. reflexivity.
Defined.



(** ** Teardown *)

Lemma handleFormSubmit_marked (H : Host) (p : Props) (data labelled : JSValue) (w : World) :
  submittedDataWithLabels H (formTypeOf H p) (thisFormState H p w) data = Some labelled ->
  submittedForms (handleFormSubmit H p data w) !! formIdOf H p
  = Some (asSubmitted (thisFormState H p w) labelled).
Proof.
  intros Hl. unfold handleFormSubmit. rewrite Hl.
  destruct (synthesizeMessage H (formTypeOf H p) (thisFormState H p w) data);
    unfold setChatBlocked, submitMessage, emit, setSubmittedForms;
    cbn [submittedForms]; apply lookup_insert_eq.
Qed.

(** X6.  once the submit handler has marked the record submitted, the
    teardown of the detector changes nothing, whether or not the handler
    went on to send its message and to release the lock: the blocked flag
    is left as the handler left it. *)
Theorem cleanup_after_submit (H : Host) (p : Props) (data labelled : JSValue) (w : World) :
  submittedDataWithLabels H (formTypeOf H p) (thisFormState H p w) data = Some labelled ->
  cleanupEffect H p (handleFormSubmit H p data w) = handleFormSubmit H p data w.
Proof.
  intros Hl. unfold cleanupEffect, thisFormState.
  rewrite (handleFormSubmit_marked H p data labelled w Hl).
  cbn [default from_option id asSubmitted isSubmitted negb].
  now destruct (toolConfigOf H p).
Qed.

Lemma cleanup_after_submit_witness :
  let w := triggerEffect refHost scenarioA emptyWorld in
  let w' := handleFormSubmit refHost scenarioA crawlData w in
  cleanupEffect refHost scenarioA w' = w'.
Proof.
  apply (cleanup_after_submit refHost scenarioA crawlData
           (JObj (JS.assign (JS.spread crawlData)
                    [("websiteLabel", JStr "Acme (acme.com)");
                     ("crawlConfigLabel", JStr "Default Configuration")]))
           (triggerEffect refHost scenarioA emptyWorld)).
  vm_compute. reflexivity.
Defined.

(** X7.  the teardown of a detector whose own form is not submitted (never
    opened, pending or cancelled) clears the blocked flag of its
    conversation even while another form of the same conversation is
    pending: that form keeps its pending record and its banner, and the
    conversation is no longer blocked. *)
Theorem cleanup_clears_shared_flag (H : Host) (p q : Props) (w : World) (cfg : ToolConfig)
  (t : ToolName) (rq : FormRecord) :
  toolConfigOf H p = Some cfg ->
  isSubmitted (thisFormState H p w) = false ->
  toolConfigOf H q = Some (Configured t) ->
  conversationKey q = conversationKey p ->
  formIdOf H q <> formIdOf H p ->
  submittedForms w !! formIdOf H q = Some rq ->
  isPending rq = true ->
  let w' := cleanupEffect H p w in
  isChatBlocked w' !! conversationKey q = Some false
  /\ submittedForms w' !! formIdOf H q = Some rq
  /\ render H q w' = RenderForm (configFormType t) true rq.
Proof.
  intros Hc Hs Hq Hconv Hid Hrq Hpend w'. subst w'.
  unfold cleanupEffect. rewrite Hc, Hs. cbn [negb].
  unfold render, thisFormState, setChatBlocked. cbn [submittedForms isChatBlocked].
  rewrite Hq, Hrq, Hconv. cbn [default from_option id]. rewrite Hpend.
  split; [apply lookup_insert_eq | split; reflexivity].
Qed.

(** The crawl form of scenario A is pending when a custom form detector of
    the same conversation, whose form never opened, is torn down. *)
Lemma cleanup_clears_shared_flag_witness :
  let p := {| toolCall_name := Some "render_custom_form_mcp_srv";
              output_prop := Some "[]"; messageId := Some "m2";
              conversationId := Some "conv1" |} in
  let w := triggerEffect refHost p (triggerEffect refHost scenarioA emptyWorld) in
  let w' := cleanupEffect refHost p w in
  isChatBlocked w !! conversationKey scenarioA = Some true
  /\ isChatBlocked w' !! conversationKey scenarioA = Some false
  /\ submittedForms w' !! formIdOf refHost scenarioA = Some (thisFormState refHost scenarioA w)
  /\ render refHost scenarioA w'
     = RenderForm (configFormType render_crawl_form) true (thisFormState refHost scenarioA w).
Proof.
  split; [vm_compute; reflexivity |].
  apply (cleanup_clears_shared_flag refHost
           {| toolCall_name := Some "render_custom_form_mcp_srv";
              output_prop := Some "[]"; messageId := Some "m2";
              conversationId := Some "conv1" |}
           scenarioA
           (triggerEffect refHost
              {| toolCall_name := Some "render_custom_form_mcp_srv";
                 output_prop := Some "[]"; messageId := Some "m2";
                 conversationId := Some "conv1" |}
              (triggerEffect refHost scenarioA emptyWorld))
           (Configured render_custom_form) render_crawl_form
           (thisFormState refHost scenarioA
              (triggerEffect refHost
                 {| toolCall_name := Some "render_custom_form_mcp_srv";
                    output_prop := Some "[]"; messageId := Some "m2";
                    conversationId := Some "conv1" |}
                 (triggerEffect refHost scenarioA emptyWorld)))).
  - vm_compute. reflexivity.
  - vm_compute. reflexivity.
  - vm_compute. reflexivity.
  - vm_compute. reflexivity.
  - vm_compute. discriminate.
  - vm_compute. reflexivity.
  - vm_compute. reflexivity.
Defined.

(** ** Submissions that complete *)













Lemma handleFormSubmit_completed (H : Host) (p : Props) (data labelled : JSValue)
  (message : string) (w : World) :
  submittedDataWithLabels H (formTypeOf H p) (thisFormState H p w) data = Some labelled ->
  synthesizeMessage H (formTypeOf H p) (thisFormState H p w) data = Some message ->
  let w' := handleFormSubmit H p data w in
  trace w' = (trace w ++ [SetSubmittedForms (formIdOf H p)
                            (asSubmitted (thisFormState H p w) labelled);
                          SubmitMessage message;
                          SetChatBlocked (conversationKey p) false])%list
  /\ submittedForms w' !! formIdOf H p = Some (asSubmitted (thisFormState H p w) labelled)
  /\ isChatBlocked w' !! conversationKey p = Some false.
Proof.
  intros Hl Hm w'. subst w'. split; [| split].
  - now rewrite handleFormSubmit_trace, Hl, Hm.
  - now apply handleFormSubmit_marked.
  - unfold handleFormSubmit. rewrite Hl, Hm. apply lookup_insert_eq.
Qed.



(** ** Postconditions of the parsers *)

Lemma unwrapTextContent_text (H : Host) (wrapped s : string) (item : JSValue)
  (rest : list JSValue) (v : JSValue) :
  JSON_parse H wrapped = Some (JArr (item :: rest)) ->
  JS.get item "text" = Some (JStr s) -> s <> "" ->
  JSON_parse H s = Some v ->
  parsedDataOf H wrapped = Some v.
Proof.
  intros Hw Ht Hne Hs. unfold parsedDataOf, unwrapTextContent.
  rewrite Hw. cbn [mbind option_bind]. rewrite Ht. cbn [mbind option_bind JS.truthy].
  apply isEmpty_false in Hne. rewrite Hne. cbn [negb].
  unfold parseValue. cbn [JS.toString]. now rewrite Hs.
Qed.

Lemma parsedDataOf_object (H : Host) (s : string) (props : list (string * JSValue)) :
  JSON_parse H s = Some (JObj props) -> parsedDataOf H s = Some (JObj props).
Proof. intros Hs. unfold parsedDataOf, unwrapTextContent. now rewrite Hs. Qed.

(** X9.  a tool output that arrives wrapped in a TextContent block
    [[{type, text}]] gives the same bundle as its text alone, for every
    parser but the email one, when the text is the JSON of an object (for
    the custom form: also after its NOTE section is cut off). *)
Theorem text_content_unwrapped (H : Host) (t : ToolName) (wrapped s : string)
  (item : JSValue) (rest : list JSValue) (props : list (string * JSValue)) :
  t <> email_sme_questions_form ->
  JSON_parse H wrapped = Some (JArr (item :: rest)) ->
  JS.get item "text" = Some (JStr s) ->
  s <> "" ->
  JSON_parse H s = Some (JObj props) ->
  (t = render_custom_form -> JSON_parse H (Str.trim (stripNote s)) = Some (JObj props)) ->
  extractOptions H t wrapped = extractOptions H t s.
Proof.
  intros Ht Hw Htext Hne Hs Hcustom.
  assert (Hpw : parsedDataOf H wrapped = Some (JObj props))
    by exact (unwrapTextContent_text H wrapped s item rest _ Hw Htext Hne Hs).
  assert (Hps : parsedDataOf H s = Some (JObj props)) by now apply parsedDataOf_object.
  unfold extractOptions. f_equal.
  destruct t; cbn [extractBody]; try congruence.
  - unfold crawlBody. now rewrite Hpw, Hps.
  - unfold addCrawlConfigBody, addCrawlConfigUnwrap. rewrite Hw, Hs.
    cbn [mbind option_bind JS.isArray JS.first andb]. unfold JS.getOpt. rewrite Htext.
    cbn [default from_option id JS.truthy]. apply isEmpty_false in Hne. rewrite Hne.
    cbn [negb]. unfold parseValue. cbn [JS.toString]. now rewrite Hs.
  - unfold customBody, customUnwrap. rewrite Hw, Hs, Htext.
    cbn [JS.truthy]. apply isEmpty_false in Hne. rewrite Hne. cbn [negb].
    now rewrite (Hcustom eq_refl).
  - unfold outreachBody. now rewrite Hpw, Hps.
  - unfold siteKeywordBody. now rewrite Hpw, Hps.
  - unfold keywordClusterBody. now rewrite Hpw, Hps.
Qed.

Lemma text_content_unwrapped_witness :
  extractOptions refHost render_load_keyword_cluster_form
    (Str.json "[{'type':'text','text':'{\'websites_list\':[{\'id\':7,\'name\':\'Acme\',\'url\':\'acme.com\'}]}'}]")
  = extractOptions refHost render_load_keyword_cluster_form
      (Str.json "{'websites_list':[{'id':7,'name':'Acme','url':'acme.com'}]}").
Proof.
  apply (text_content_unwrapped refHost render_load_keyword_cluster_form
           (Str.json "[{'type':'text','text':'{\'websites_list\':[{\'id\':7,\'name\':\'Acme\',\'url\':\'acme.com\'}]}'}]")
           (Str.json "{'websites_list':[{'id':7,'name':'Acme','url':'acme.com'}]}")
           (JObj [("type", JStr "text");
                  ("text", JStr (Str.json "{'websites_list':[{'id':7,'name':'Acme','url':'acme.com'}]}"))])
           []
           [("websites_list",
             JArr [JObj [("id", JNum 7); ("name", JStr "Acme"); ("url", JStr "acme.com")]])]).
  - discriminate.
  - vm_compute. reflexivity.
  - vm_compute. reflexivity.
  - vm_compute. discriminate.
  - vm_compute. reflexivity.
  - discriminate.
Defined.






Lemma noteMarker_nonempty : noteMarker <> "".
Proof. discriminate. Qed.

(** X11.  cutting the NOTE section keeps a prefix of the text, and what is
    kept holds the NOTE marker only in the one case in which nothing is
    cut although the marker is there: when the text begins with it. *)
Theorem stripNote_prefix (s : string) :
  (exists rest, s = stripNote s +:+ rest)
  /\ Str.includes noteMarker (stripNote s) = Str.startsWith noteMarker s
  /\ (Str.includes noteMarker s = false -> stripNote s = s).
Proof.
  unfold stripNote. destruct (Str.indexOf noteMarker s) as [[|n]|] eqn:E.
  - apply indexOf_0 in E. repeat split.
    + exists "". clear. induction s as [|c s IH]; [reflexivity |].
      rewrite sapp_cons. now f_equal.
    + rewrite E. now apply includes_startsWith.
  - repeat split.
    + exists (Str.drop (S n) s). symmetry. apply str_take_drop.
    + rewrite (indexOf_first _ _ _ noteMarker_nonempty E).
      destruct (Str.startsWith noteMarker s) eqn:Es; [| reflexivity].
      apply indexOf_0 in Es. congruence.
    + intros Hi. apply indexOf_None in Hi. congruence.
  - repeat split.
    + exists "". clear. induction s as [|c s IH]; [reflexivity |].
      rewrite sapp_cons. now f_equal.
    + apply indexOf_None in E. rewrite E.
      destruct (Str.startsWith noteMarker s) eqn:Es; [| reflexivity].
      apply includes_startsWith in Es. congruence.
Qed.

Lemma stripNote_prefix_witness :
  (exists rest,
     "{}" +:+ noteMarker +:+ " fill this in"
     = stripNote ("{}" +:+ noteMarker +:+ " fill this in") +:+ rest)
  /\ Str.includes noteMarker (stripNote ("{}" +:+ noteMarker +:+ " fill this in"))
     = Str.startsWith noteMarker ("{}" +:+ noteMarker +:+ " fill this in")
  /\ (Str.includes noteMarker ("{}" +:+ noteMarker +:+ " fill this in") = false ->
      stripNote ("{}" +:+ noteMarker +:+ " fill this in")
      = "{}" +:+ noteMarker +:+ " fill this in").
Proof. apply (stripNote_prefix ("{}" +:+ noteMarker +:+ " fill this in")). Defined.

Lemma fenceOpen_nonempty : fenceOpen <> "".
Proof. discriminate. Qed.

Lemma fenceClose_nonempty : fenceClose <> "".
Proof. discriminate. Qed.

(** X12.  the content that the email parser takes from a fenced markdown
    block is never empty; it stands in the output between the first
    opening fence and the first closing fence that follows its first
    character. *)
Theorem markdownMatch_enclosed (out content : string) :
  markdownMatch out = Some content ->
  exists pre c body post,
    content = String c body
    /\ out = pre +:+ fenceOpen +:+ content +:+ fenceClose +:+ post
    /\ Str.includes fenceOpen pre = false
    /\ Str.includes fenceClose body = false.
Proof.
  unfold markdownMatch. intros Hm.
  destruct (Str.indexOf fenceOpen out) as [i|] eqn:Ei; [| discriminate].
  cbn [mbind option_bind] in Hm.
  destruct (Str.drop (i + String.length fenceOpen) out) as [|c rest] eqn:Ed; [discriminate |].
  destruct (Str.indexOf fenceClose rest) as [j|] eqn:Ej; [| discriminate].
  cbn [mbind option_bind] in Hm. injection Hm as <-.
  exists (Str.take i out), c, (Str.take j rest),
    (Str.drop (j + String.length fenceClose) rest).
  split; [reflexivity |]. split; [| split].
  - destruct (indexOf_split _ _ _ Ei) as [Hout _].
    destruct (indexOf_split _ _ _ Ej) as [Hrest _].
    rewrite Ed in Hout. rewrite Hout at 1. do 2 f_equal.
    rewrite sapp_cons. f_equal. exact Hrest.
  - exact (indexOf_first _ _ _ fenceOpen_nonempty Ei).
  - exact (indexOf_first _ _ _ fenceClose_nonempty Ej).
Qed.

Lemma markdownMatch_enclosed_witness :
  exists pre c body post,
    "Hello" = String c body
    /\ "see ```markdown" +:+ Str.nl +:+ "Hello" +:+ Str.nl +:+ "```" +:+ " end"
       = pre +:+ fenceOpen +:+ "Hello" +:+ fenceClose +:+ post
    /\ Str.includes fenceOpen pre = false
    /\ Str.includes fenceClose body = false.
Proof.
  apply (markdownMatch_enclosed
           ("see ```markdown" +:+ Str.nl +:+ "Hello" +:+ Str.nl +:+ "```" +:+ " end") "Hello").
  vm_compute. reflexivity.
Defined.

Lemma map_Forall (P : JSValue -> Prop) (f : JSValue -> option JSValue) (v r : JSValue) :
  (forall x y, f x = Some y -> P y) ->
  JS.map f v = Some r -> exists items, r = JArr items /\ Forall P items.
Proof.
  intros Hf Hm. destruct v; try discriminate Hm. unfold JS.map in Hm.
  destruct (mapM f items) as [mapped|] eqn:E; [| discriminate Hm].
  injection Hm as <-. exists mapped. split; [reflexivity |].
  apply mapM_Some_1 in E. induction E as [|x y l k Hxy _ IH]; constructor; eauto.
Qed.

Lemma flatMap_Forall (P : JSValue -> Prop) (f : JSValue -> option JSValue) (v r : JSValue) :
  (forall x y, f x = Some y -> exists items, y = JArr items /\ Forall P items) ->
  JS.flatMap f v = Some r -> exists items, r = JArr items /\ Forall P items.
Proof.
  intros Hf Hm. destruct v; try discriminate Hm. unfold JS.flatMap in Hm.
  destruct (mapM f items) as [parts|] eqn:E; [| discriminate Hm].
  cbn in Hm. injection Hm as <-. eexists. split; [reflexivity |].
  apply mapM_Some_1 in E. induction E as [|x y l k Hxy _ IH]; [constructor |].
  cbn [List.map concat]. apply Forall_app. split; [| exact IH].
  destruct (Hf x y Hxy) as (ys & -> & Hys). exact Hys.
Qed.

Lemma or_truthyOr (v d : JSValue) : truthyOr d (JS.or v d).
Proof. unfold truthyOr, JS.or. destruct (JS.truthy v) eqn:E; auto. Qed.

Lemma senderOf_filled (group sender y : JSValue) :
  senderOf group sender = Some y ->
  JS.truthy (JS.getOpt y "company_name") = true
  /\ truthyOr (JStr "") (JS.getOpt y "sender_group_id").
Proof.
  unfold senderOf. intros Hs. simplify_option_eq.
  cbn [JS.getOpt JS.get JS.lookup String.eqb Ascii.eqb Bool.eqb default from_option id].
  split; [| apply or_truthyOr].
  match goal with |- JS.truthy (JS.or ?v _) = true =>
    unfold JS.or; destruct (JS.truthy v) eqn:E; [exact E | reflexivity] end.
Qed.

Lemma listOf_filled (list y : JSValue) :
  listOf list = Some y -> truthyOr (JNum 0) (JS.getOpt y "leads_count").
Proof.
  unfold listOf. intros Hs. simplify_option_eq.
  cbn [JS.getOpt JS.get JS.lookup String.eqb Ascii.eqb Bool.eqb default from_option id].
  apply or_truthyOr.
Qed.

Lemma websiteOf_filled (ws y : JSValue) :
  websiteOf ws = Some y -> truthyOr (JS.getOpt y "url") (JS.getOpt y "name").
Proof.
  unfold websiteOf. intros Hs. simplify_option_eq.
  cbn [JS.getOpt JS.get JS.lookup String.eqb Ascii.eqb Bool.eqb default from_option id].
  apply or_truthyOr.
Qed.

(** X13.  the fall-backs of the option parsers hold for every output: each
    sender of the outreach bundle has a non-empty company name (that of its
    group, or [Unknown Company]) and a group id that is truthy or the empty
    string, each list has a lead count that is truthy or [0], and each
    website of the crawl bundle has a name that is truthy or its url. *)
Theorem option_defaults (H : Host) (out : string) :
  (exists ss ls,
     JS.getOpt (extractOptions H render_outreach_generate_form out) "senders" = JArr ss
     /\ JS.getOpt (extractOptions H render_outreach_generate_form out) "lists" = JArr ls
     /\ Forall (fun s => JS.truthy (JS.getOpt s "company_name") = true
                         /\ truthyOr (JStr "") (JS.getOpt s "sender_group_id")) ss
     /\ Forall (fun l => truthyOr (JNum 0) (JS.getOpt l "leads_count")) ls)
  /\ (exists ws,
        JS.getOpt (extractOptions H render_crawl_form out) "websites" = JArr ws
        /\ Forall (fun w => truthyOr (JS.getOpt w "url") (JS.getOpt w "name")) ws).
Proof.
  split.
  - unfold extractOptions, extractBody.
    destruct (outreachBody H out) as [b|] eqn:E.
    + unfold outreachBody in E. simplify_option_eq.
      match goal with Hs : JS.flatMap sendersOfGroup _ = Some _ |- _ =>
        eapply flatMap_Forall in Hs as (ss & -> & Hss) end.
      2: { intros x y Hxy. unfold sendersOfGroup in Hxy. simplify_option_eq.
           eapply map_Forall; [apply senderOf_filled | eassumption]. }
      match goal with Hl : mapOrEmpty listOf _ = Some _ |- _ =>
        apply (map_Forall _ _ _ _ listOf_filled) in Hl as (ls & -> & Hls) end.
      exists ss, ls. repeat split; assumption.
    + exists [], []. repeat split; constructor.
  - unfold extractOptions, extractBody.
    destruct (crawlBody H out) as [b|] eqn:E.
    + unfold crawlBody in E. simplify_option_eq.
      match goal with Hw : mapOrEmpty websiteOf _ = Some _ |- _ =>
        apply (map_Forall _ _ _ _ websiteOf_filled) in Hw as (ws & -> & Hws) end.
      exists ws. split; [reflexivity | assumption].
    + exists []. split; [reflexivity | constructor].
Qed.

(** ** Prefilled parameters *)

Lemma foldParams_lookup (k : string) (items : list JSValue)
  (acc r : list (string * JSValue)) :
  k <> "__proto__" ->
  foldParams acc items = Some r ->
  JS.lookup k r
  = fold_left (fun found param =>
                 if String.eqb (JS.toString (JS.getOpt param "key")) k
                 then Some (JS.getOpt param "value") else found) items (JS.lookup k acc).
Proof.
  intros Hk. revert acc; induction items as [|param items IH]; intros acc Hf.
  - injection Hf as <-. reflexivity.
  - cbn [foldParams] in Hf. unfold JS.getOpt. cbn [fold_left].
    destruct (JS.get param "key") as [kk|]; [| discriminate Hf].
    destruct (JS.get param "value") as [v|]; [| discriminate Hf].
    cbn [default from_option id]. rewrite (IH _ Hf). f_equal.
    unfold assignParam.
    destruct (String.eqb (JS.toString kk) "__proto__") eqn:Ep.
    + apply String.eqb_eq in Ep. rewrite Ep.
      destruct (String.eqb "__proto__" k) eqn:Ek; [| reflexivity].
      apply String.eqb_eq in Ek. congruence.
    + destruct (String.eqb (JS.toString kk) k) eqn:Ek.
      * apply String.eqb_eq in Ek. subst k. apply lookup_setProp_eq.
      * apply String.eqb_neq in Ek. apply lookup_setProp_ne. congruence.
Qed.

Lemma foldParams_proto (items : list JSValue) (acc r : list (string * JSValue)) :
  foldParams acc items = Some r ->
  JS.lookup "__proto__" acc = None -> JS.lookup "__proto__" r = None.
Proof.
  revert acc; induction items as [|param items IH]; intros acc Hf Hacc.
  - injection Hf as <-. exact Hacc.
  - cbn [foldParams] in Hf.
    destruct (JS.get param "key") as [kk|]; [| discriminate Hf].
    destruct (JS.get param "value") as [v|]; [| discriminate Hf].
    apply (IH _ Hf). unfold assignParam.
    destruct (String.eqb (JS.toString kk) "__proto__") eqn:Ep; [exact Hacc |].
    apply String.eqb_neq in Ep. rewrite lookup_setProp_ne; [exact Hacc | congruence].
Qed.

(** X14.  the object made of the [prefilled_params] list holds, under every
    key, the value of the last parameter whose key converts to it, and
    nothing under a key that no parameter names; a parameter named
    [__proto__] adds no property. *)
Theorem prefilledParams_last_wins (items : list JSValue) (pp : list (string * JSValue))
  (k : string) :
  prefilledParamsOf (JArr items) = Some (JObj pp) ->
  JS.lookup k pp = (if String.eqb k "__proto__" then None else lastParam k items).
Proof.
  unfold prefilledParamsOf. intros Hp.
  destruct (foldParams [] items) as [r|] eqn:E; [| discriminate Hp].
  injection Hp as <-.
  destruct (String.eqb k "__proto__") eqn:Ek.
  - apply String.eqb_eq in Ek. subst k. now apply (foldParams_proto items [] r E).
  - apply String.eqb_neq in Ek. exact (foldParams_lookup k items [] r Ek E).
Qed.

Lemma prefilledParams_last_wins_witness :
  JS.lookup "name" [("name", JStr "Shop")]
  = (if String.eqb "name" "__proto__" then None
     else lastParam "name" [JObj [("key", JStr "name"); ("value", JStr "Store")];
                            JObj [("key", JStr "__proto__"); ("value", JNum 1)];
                            JObj [("key", JStr "name"); ("value", JStr "Shop")]]).
Proof.
  apply (prefilledParams_last_wins
           [JObj [("key", JStr "name"); ("value", JStr "Store")];
            JObj [("key", JStr "__proto__"); ("value", JNum 1)];
            JObj [("key", JStr "name"); ("value", JStr "Shop")]]
           [("name", JStr "Shop")] "name").
  vm_compute. reflexivity.
Defined.

(** ** The upload of the add-crawl-config form, whatever the network does *)

Lemma addCrawlConfig_report (H : Host) (p : Props) (form : UploadForm) (fileName : string)
  (response : JSValue) (w0 w : World) (calls : list Event) :
  formTypeOf H p = Some AddCrawlConfig ->
  trace w0 = (trace w ++ calls)%list ->
  submittedForms w0 = submittedForms w ->
  let w' := handleFormSubmit H p (submission form fileName response) w0 in
  trace w'
  = (trace w ++ calls ++
     [SetSubmittedForms (formIdOf H p)
        (asSubmitted (thisFormState H p w) (labelledUpload form fileName response));
      SubmitMessage
        (addCrawlConfigEcho (JStr (name form)) (JS.or (JStr fileName) (JStr "config file"))
           (JStr (description form))
         +:+ addCrawlConfigResultInfo H (JS.getOpt response "result")
               (JS.getOpt response "error"));
      SetChatBlocked (conversationKey p) false])%list
  /\ submittedForms w' !! formIdOf H p
     = Some (asSubmitted (thisFormState H p w) (labelledUpload form fileName response))
  /\ isChatBlocked w' !! conversationKey p = Some false.
Proof.
  intros Hft Ht Hs w'.
  assert (Hstate : thisFormState H p w0 = thisFormState H p w).
  { unfold thisFormState. now rewrite Hs. }
  destruct (handleFormSubmit_completed H p (submission form fileName response)
              (labelledUpload form fileName response)
              (addCrawlConfigEcho (JStr (name form))
                 (JS.or (JStr fileName) (JStr "config file")) (JStr (description form))
               +:+ addCrawlConfigResultInfo H (JS.getOpt response "result")
                     (JS.getOpt response "error")) w0)
    as (Htr & Hrec & Hlock).
  - rewrite Hft. reflexivity.
  - rewrite Hft. reflexivity.
  - subst w'. rewrite Htr, Hrec, Hlock, Ht, Hstate, <- app_assoc. auto.
Qed.

(** X15.  with a file and a name, one run of the upload form always ends
    with one submission to the detector, whatever the network answers: the
    create call is made first, the file is [PUT] at most once and the
    delete call made at most once, then the record is marked submitted, one
    message is sent and the lock of the conversation is released.  The
    delete call is made only for a truthy id and only when the run
    reports an error; a run that reports a result has made the [PUT], with
    success, and no delete call. *)
Theorem upload_always_reports (H : Host) (p : Props) (form : UploadForm) (fileName : string)
  (net : Network) (w : World) :
  formTypeOf H p = Some AddCrawlConfig ->
  file form = Some fileName ->
  name form <> "" ->
  let server := serverNameOf H p in
  let w' := handleSubmit H (handleFormSubmit H p) form server net w in
  exists put del response message,
    trace w'
    = (trace w ++ uploadCalls server form put del ++
       [SetSubmittedForms (formIdOf H p)
          (asSubmitted (thisFormState H p w) (labelledUpload form fileName response));
        SubmitMessage message;
        SetChatBlocked (conversationKey p) false])%list
    /\ submittedForms w' !! formIdOf H p
       = Some (asSubmitted (thisFormState H p w) (labelledUpload form fileName response))
    /\ isChatBlocked w' !! conversationKey p = Some false
    /\ ((exists configData, response = JObj [("result", configData)]
                            /\ createPhase H net = inr configData)
        \/ (exists msg, response = JObj [("error", JStr msg)]))
    /\ (forall configId, del = Some configId ->
          JS.truthy configId = true /\ exists msg, response = JObj [("error", JStr msg)])
    /\ (forall configData, response = JObj [("result", configData)] ->
          put <> None /\ del = None /\ uploadError (uploadCall net) = None).
Proof.
  intros Hft Hfile Hname server w'. subst w'. unfold handleSubmit. rewrite Hfile.
  apply isEmpty_false in Hname. rewrite Hname.
  set (w1 := emit _ w).
  assert (Hfail : forall configId e put w2,
    trace w2 = (trace w ++ uploadCalls server form put None)%list ->
    submittedForms w2 = submittedForms w ->
    exists del response message,
      trace (failUpload (handleFormSubmit H p) form fileName server net configId e w2)
      = (trace w ++ uploadCalls server form put del ++
         [SetSubmittedForms (formIdOf H p)
            (asSubmitted (thisFormState H p w) (labelledUpload form fileName response));
          SubmitMessage message;
          SetChatBlocked (conversationKey p) false])%list
      /\ submittedForms
           (failUpload (handleFormSubmit H p) form fileName server net configId e w2)
         !! formIdOf H p
         = Some (asSubmitted (thisFormState H p w) (labelledUpload form fileName response))
      /\ isChatBlocked
           (failUpload (handleFormSubmit H p) form fileName server net configId e w2)
         !! conversationKey p = Some false
      /\ (exists msg, response = JObj [("error", JStr msg)])
      /\ (forall id, del = Some id -> JS.truthy id = true)).
  { intros configId e put w2 Ht Hs. unfold failUpload.
    destruct (JS.truthy configId) eqn:Etruthy.
    - exists (Some configId). eexists. eexists.
      edestruct (addCrawlConfig_report H p form fileName
                   (JObj [("error", JStr (errorMessage e))])
                   (match deleteCall net with
                    | NetworkFailure _ | Response _ _ _ =>
                        emit (CallTool (deleteToolId server) (JObj [("id", configId)])) w2
                    end) w (uploadCalls server form put (Some configId)) Hft)
        as (Htr & Hrec & Hlock).
      + destruct (deleteCall net); cbn [emit trace]; rewrite Ht;
          unfold uploadCalls; rewrite <- !app_assoc; cbn [app];
          destruct put; cbn [app]; rewrite ?app_nil_r; reflexivity.
      + destruct (deleteCall net); exact Hs.
      + repeat split; [exact Htr | exact Hrec | exact Hlock | now eexists |].
        intros id [= <-]. exact Etruthy.
    - exists None. eexists. eexists.
      edestruct (addCrawlConfig_report H p form fileName
                   (JObj [("error", JStr (errorMessage e))]) w2 w
                   (uploadCalls server form put None) Hft Ht Hs)
        as (Htr & Hrec & Hlock).
      repeat split; [exact Htr | exact Hrec | exact Hlock | now eexists |].
      intros id [=]. }
  assert (Hw1 : trace w1 = (trace w ++ uploadCalls server form None None)%list)
    by reflexivity.
  assert (Hs1 : submittedForms w1 = submittedForms w) by reflexivity.
  assert (Hwrap : forall configId e put w2,
    trace w2 = (trace w ++ uploadCalls server form put None)%list ->
    submittedForms w2 = submittedForms w ->
    exists put' del response message,
      trace (failUpload (handleFormSubmit H p) form fileName server net configId e w2)
      = (trace w ++ uploadCalls server form put' del ++
         [SetSubmittedForms (formIdOf H p)
            (asSubmitted (thisFormState H p w) (labelledUpload form fileName response));
          SubmitMessage message;
          SetChatBlocked (conversationKey p) false])%list
      /\ submittedForms
           (failUpload (handleFormSubmit H p) form fileName server net configId e w2)
         !! formIdOf H p
         = Some (asSubmitted (thisFormState H p w) (labelledUpload form fileName response))
      /\ isChatBlocked
           (failUpload (handleFormSubmit H p) form fileName server net configId e w2)
         !! conversationKey p = Some false
      /\ ((exists configData, response = JObj [("result", configData)]
                              /\ createPhase H net = inr configData)
          \/ (exists msg, response = JObj [("error", JStr msg)]))
      /\ (forall id, del = Some id ->
            JS.truthy id = true /\ exists msg, response = JObj [("error", JStr msg)])
      /\ (forall configData, response = JObj [("result", configData)] ->
            put' <> None /\ del = None /\ uploadError (uploadCall net) = None)).
  { intros configId e put w2 Ht Hs.
    destruct (Hfail configId e put w2 Ht Hs)
      as (del & response & message & Htr & Hrec & Hlock & [msg ->] & Hdel).
    exists put, del, (JObj [("error", JStr msg)]), message.
    split; [exact Htr |]. split; [exact Hrec |]. split; [exact Hlock |].
    split; [right; eauto |]. split; [intros id Hid; split; eauto |].
    intros configData [=]. }
  destruct (createPhase H net) as [e | configData] eqn:Ecreate.
  { exact (Hwrap JNull e None w1 Hw1 Hs1). }
  destruct (JS.get configData "id") as [configId|] eqn:Eid.
  2: { exact (Hwrap JNull (runtimeError H) None w1 Hw1 Hs1). }
  destruct (JS.truthy (JS.or (JS.getOpt configData "upload_url")
                             (JS.getOpt configData "uploadUrl"))) eqn:Eurl.
  2: { exact (Hwrap configId (ErrorObject (noUploadUrl)) None w1 Hw1 Hs1). }
  set (url := JS.toString (JS.or (JS.getOpt configData "upload_url")
                                 (JS.getOpt configData "uploadUrl"))).
  set (w2 := emit (PutFile url) w1).
  assert (Hw2 : trace w2 = (trace w ++ uploadCalls server form (Some url) None)%list).
  { subst w2 w1. cbn [emit trace]. unfold uploadCalls. now rewrite <- app_assoc. }
  destruct (uploadError (uploadCall net)) as [e|] eqn:Eup.
  { exact (Hwrap configId e (Some url) w2 Hw2 Hs1). }
  exists (Some url), None, (JObj [("result", configData)]). eexists.
  edestruct (addCrawlConfig_report H p form fileName (JObj [("result", configData)])
               w2 w (uploadCalls server form (Some url) None) Hft Hw2 Hs1)
    as (Htr & Hrec & Hlock).
  split; [exact Htr |]. split; [exact Hrec |]. split; [exact Hlock |].
  split; [left; eauto |]. split; [intros configId' [=] |].
  intros configData' [= <-]. split; [discriminate | split; reflexivity].
Qed.

(** Scenario F for the form opened in scenario E. *)
Lemma upload_always_reports_witness :
  let w := triggerEffect refHost scenarioE emptyWorld in
  let server := serverNameOf refHost scenarioE in
  let w' := handleSubmit refHost (handleFormSubmit refHost scenarioE) formE server networkF w in
  exists put del response message,
    trace w'
    = (trace w ++ uploadCalls server formE put del ++
       [SetSubmittedForms (formIdOf refHost scenarioE)
          (asSubmitted (thisFormState refHost scenarioE w)
             (labelledUpload formE "shop.seospiderconfig" response));
        SubmitMessage message;
        SetChatBlocked (conversationKey scenarioE) false])%list
    /\ submittedForms w' !! formIdOf refHost scenarioE
       = Some (asSubmitted (thisFormState refHost scenarioE w)
                 (labelledUpload formE "shop.seospiderconfig" response))
    /\ isChatBlocked w' !! conversationKey scenarioE = Some false
    /\ ((exists configData, response = JObj [("result", configData)]
                            /\ createPhase refHost networkF = inr configData)
        \/ (exists msg, response = JObj [("error", JStr msg)]))
    /\ (forall configId, del = Some configId ->
          JS.truthy configId = true /\ exists msg, response = JObj [("error", JStr msg)])
    /\ (forall configData, response = JObj [("result", configData)] ->
          put <> None /\ del = None /\ uploadError (uploadCall networkF) = None).
Proof.
  apply (upload_always_reports refHost scenarioE formE "shop.seospiderconfig" networkF
           (triggerEffect refHost scenarioE emptyWorld)).
  - vm_compute. reflexivity.
  - reflexivity.
  - discriminate.
Defined.



(** ** The file of the upload form *)

(** X17.  whatever files the user selects and removes, in any order, the
    file that the upload form holds is one that passed both checks: its
    name ends with [.seospiderconfig] and it has at most 10 MiB.  A
    selection that fails a check never replaces the file. *)
Theorem selected_file_accepted (actions : list AddCrawlConfigForm.FileAction)
  (f : AddCrawlConfigForm.SelectedFile) :
  fold_left AddCrawlConfigForm.fileAfter actions None = Some f ->
  acceptedFile f.
Proof.
  assert (Hstep : forall file a,
    (forall g, file = Some g -> acceptedFile g) ->
    forall g, AddCrawlConfigForm.fileAfter file a = Some g -> acceptedFile g).
  { intros file a Hfile g Hg.
    destruct a as [[sel|]|]; cbn [AddCrawlConfigForm.fileAfter] in Hg;
      [| now apply Hfile | discriminate].
    unfold AddCrawlConfigForm.handleFileChange in Hg.
    destruct (Str.endsWith ".seospiderconfig" (AddCrawlConfigForm.name sel)) eqn:Eext;
      cbn [negb] in Hg; [| now apply Hfile].
    destruct (AddCrawlConfigForm.size sel >? AddCrawlConfigForm.maxSize)%Z eqn:Esize;
      [now apply Hfile |].
    injection Hg as <-. split; [exact Eext | lia]. }
  assert (Hgen : forall file,
    (forall g, file = Some g -> acceptedFile g) ->
    forall g, fold_left AddCrawlConfigForm.fileAfter actions file = Some g -> acceptedFile g).
  { induction actions as [|a actions IH]; intros file Hfile g Hg.
    - now apply Hfile.
    - cbn [fold_left] in Hg. exact (IH _ (Hstep file a Hfile) g Hg). }
  apply Hgen. discriminate.
Qed.

Lemma selected_file_accepted_witness :
  acceptedFile {| AddCrawlConfigForm.name := "shop.seospiderconfig";
                  AddCrawlConfigForm.size := 2048 |}.
Proof.
  apply (selected_file_accepted
           [AddCrawlConfigForm.SelectFile
              (Some {| AddCrawlConfigForm.name := "shop.seospiderconfig";
                       AddCrawlConfigForm.size := 2048 |});
            AddCrawlConfigForm.SelectFile
              (Some {| AddCrawlConfigForm.name := "notes.txt";
                       AddCrawlConfigForm.size := 10 |});
            AddCrawlConfigForm.SelectFile
              (Some {| AddCrawlConfigForm.name := "big.seospiderconfig";
                       AddCrawlConfigForm.size := 10485761 |})]).
  vm_compute. reflexivity.
Defined.

(** ** The URLs of the keyword cluster form *)

Module TrimFacts.

Import Str.











Lemma all_head (f : ascii -> bool) (s : string) :
  all f s = true -> headIs f s = false -> s = "".
Proof. destruct s as [|c s]; [reflexivity |]. cbn. intros Ha Hh. now rewrite Hh in Ha. Qed.


Lemma trimEnd_nil : trimEnd "" = "".
Proof. reflexivity. Qed.










End TrimFacts.

Import TrimFacts.













(** ** Failed tool calls in the messages *)

Lemma lookup_snoc (k k' : string) (v : JSValue) (props : list (string * JSValue)) :
  JS.lookup k (props ++ [(k', v)])%list
  = match JS.lookup k props with
    | Some x => Some x
    | None => if String.eqb k k' then Some v else None
    end.
Proof.
  induction props as [|[k2 v2] props IH]; cbn [app JS.lookup]; [reflexivity |].
  destruct (String.eqb k k2); [reflexivity | exact IH].
Qed.

Lemma get_snoc_other (k k' : string) (v v' : JSValue) (props : list (string * JSValue)) :
  k <> k' ->
  JS.get (JObj (props ++ [(k', v)])%list) k = JS.get (JObj (props ++ [(k', v')])%list) k.
Proof.
  intros Hne. cbn [JS.get]. rewrite !lookup_snoc.
  apply String.eqb_neq in Hne. now rewrite Hne.
Qed.

Lemma findIn_ext (f g : JSValue -> option bool) (items : list JSValue) :
  (forall x, f x = g x) -> JS.findIn f items = JS.findIn g items.
Proof.
  intros Hfg. induction items as [|x items IH]; [reflexivity |].
  cbn [JS.findIn]. rewrite Hfg, IH. reflexivity.
Qed.

Lemma findById_snoc_other (candidates : JSValue) (field k' : string) (v v' : JSValue)
  (props : list (string * JSValue)) :
  field <> k' ->
  findById candidates (JObj (props ++ [(k', v)])%list) field
  = findById candidates (JObj (props ++ [(k', v')])%list) field.
Proof.
  intros Hne. unfold findById. destruct candidates; try reflexivity.
  cbn [JS.findOpt]. apply findIn_ext. intros x.
  now rewrite (get_snoc_other field k' v v' props Hne).
Qed.

Lemma toolResponse_result_error (props : list (string * JSValue)) (e : Thrown) :
  JS.lookup "toolResponse" props = None ->
  toolResponse (JObj (props ++ [("toolResponse", errorResponse e)])%list) "result"
  = toolResponse (JObj (props ++ [("toolResponse", JUndefined)])%list) "result".
Proof.
  intros Hnone. unfold toolResponse. cbn [JS.get]. rewrite !lookup_snoc, Hnone. reflexivity.
Qed.

Lemma crawlMessage_ignores_error (H : Host) (state : FormRecord)
  (props : list (string * JSValue)) (e : Thrown) :
  JS.lookup "toolResponse" props = None ->
  crawlMessage H state (JObj (props ++ [("toolResponse", errorResponse e)])%list)
  = crawlMessage H state (JObj (props ++ [("toolResponse", JUndefined)])%list).
Proof.
  intros Hnone. unfold crawlMessage, websiteLabel, crawlConfigLabel.
  rewrite (toolResponse_result_error props e Hnone).
  repeat match goal with
  | |- context [findById ?l (JObj (?q ++ [("toolResponse", errorResponse e)])%list) ?f] =>
      rewrite (findById_snoc_other l f "toolResponse" (errorResponse e) JUndefined q)
        by discriminate
  | |- context [JS.get (JObj (?q ++ [("toolResponse", errorResponse e)])%list) ?f] =>
      rewrite (get_snoc_other f "toolResponse" (errorResponse e) JUndefined q)
        by discriminate
  end.
  reflexivity.
Qed.

Lemma siteKeywordMessage_ignores_error (state : FormRecord)
  (props : list (string * JSValue)) (e : Thrown) :
  JS.lookup "toolResponse" props = None ->
  siteKeywordMessage state (JObj (props ++ [("toolResponse", errorResponse e)])%list)
  = siteKeywordMessage state (JObj (props ++ [("toolResponse", JUndefined)])%list).
Proof.
  intros Hnone. unfold siteKeywordMessage, websiteLabelIn, serviceAccountInfo, websiteLabel.
  rewrite (toolResponse_result_error props e Hnone).
  repeat match goal with
  | |- context [findById ?l (JObj (?q ++ [("toolResponse", errorResponse e)])%list) ?f] =>
      rewrite (findById_snoc_other l f "toolResponse" (errorResponse e) JUndefined q)
        by discriminate
  | |- context [JS.get (JObj (?q ++ [("toolResponse", errorResponse e)])%list) ?f] =>
      rewrite (get_snoc_other f "toolResponse" (errorResponse e) JUndefined q)
        by discriminate
  end.
  reflexivity.
Qed.

Lemma keywordClusterMessage_ignores_error (state : FormRecord)
  (props : list (string * JSValue)) (e : Thrown) :
  JS.lookup "toolResponse" props = None ->
  keywordClusterMessage state (JObj (props ++ [("toolResponse", errorResponse e)])%list)
  = keywordClusterMessage state (JObj (props ++ [("toolResponse", JUndefined)])%list).
Proof.
  intros Hnone. unfold keywordClusterMessage, websiteLabelIn, websiteLabel.
  rewrite (toolResponse_result_error props e Hnone).
  repeat match goal with
  | |- context [findById ?l (JObj (?q ++ [("toolResponse", errorResponse e)])%list) ?f] =>
      rewrite (findById_snoc_other l f "toolResponse" (errorResponse e) JUndefined q)
        by discriminate
  | |- context [JS.get (JObj (?q ++ [("toolResponse", errorResponse e)])%list) ?f] =>
      rewrite (get_snoc_other f "toolResponse" (errorResponse e) JUndefined q)
        by discriminate
  end.
  reflexivity.
Qed.

(** X20.  the messages of the crawl, site keyword and keyword cluster forms
    never show the error of a failed tool call: for a submission whose
    tool response is an error, whatever its text, the message is the one of
    the same submission without any tool response. *)
Theorem tool_error_not_reported (H : Host) (ft : FormType) (state : FormRecord)
  (props : list (string * JSValue)) (e : Thrown) :
  ft = Crawl \/ ft = SiteKeyword \/ ft = KeywordCluster ->
  JS.lookup "toolResponse" props = None ->
  synthesizeMessage H (Some ft) state
    (JObj (props ++ [("toolResponse", errorResponse e)])%list)
  = synthesizeMessage H (Some ft) state
      (JObj (props ++ [("toolResponse", JUndefined)])%list).
Proof.
  intros [-> | [-> | ->]] Hnone; cbn [synthesizeMessage].
  - now apply crawlMessage_ignores_error.
  - now apply siteKeywordMessage_ignores_error.
  - now apply keywordClusterMessage_ignores_error.
Qed.

Lemma tool_error_not_reported_witness :
  synthesizeMessage refHost (Some Crawl)
    (thisFormState refHost scenarioA (triggerEffect refHost scenarioA emptyWorld))
    (JObj ([("website_id", JStr "w1"); ("launch_date", JStr "2024-05-01");
            ("description", JStr "Weekly crawl"); ("crawl_config_id", JStr "default")]
           ++ [("toolResponse", errorResponse (ErrorObject "HTTP error! status: 500, body: boom"))])%list)
  = synthesizeMessage refHost (Some Crawl)
      (thisFormState refHost scenarioA (triggerEffect refHost scenarioA emptyWorld))
      (JObj ([("website_id", JStr "w1"); ("launch_date", JStr "2024-05-01");
              ("description", JStr "Weekly crawl"); ("crawl_config_id", JStr "default")]
             ++ [("toolResponse", JUndefined)])%list).
Proof.
  apply (tool_error_not_reported refHost Crawl).
  - left. reflexivity.
  - reflexivity.
Defined.

(** ** One run of a form, from the click to the message *)








(** ** The outreach form *)



Lemma elementIdOf_get (p : JSValue) (id : string) :
  elementIdOf p = Some id -> JS.get p "element_id" = Some (JStr id) /\ JS.truthy p = true.
Proof.
  unfold elementIdOf. destruct p; cbn; try discriminate.
  destruct (JS.lookup "element_id" props) as [[]|]; cbn; try discriminate.
  now intros [= ->].
Qed.

Lemma sameElement_ids (person p : JSValue) (id j : string) :
  elementIdOf person = Some id -> elementIdOf p = Some j ->
  OutreachForm.sameElement person p = Some (String.eqb j id).
Proof.
  intros Hperson Hp. unfold OutreachForm.sameElement.
  apply elementIdOf_get in Hperson as [-> _]. apply elementIdOf_get in Hp as [-> _].
  reflexivity.
Qed.

Lemma personIds_cons (p : JSValue) (people : list JSValue) (j : string) :
  elementIdOf p = Some j -> personIds (p :: people) = j :: personIds people.
Proof. intros Hp. unfold personIds. cbn [omap list_omap]. now rewrite Hp. Qed.

Lemma findIn_selected (person : JSValue) (prev : list JSValue) (id : string) :
  elementIdOf person = Some id ->
  Forall (fun p => is_Some (elementIdOf p)) prev ->
  exists found,
    JS.findIn (OutreachForm.sameElement person) prev = Some found
    /\ JS.truthy found = bool_decide (id ∈ personIds prev).
Proof.
  intros Hperson Hprev. induction Hprev as [|p prev [j Hp] _ IH].
  - exists JUndefined. split; [reflexivity |]. symmetry. apply bool_decide_eq_false.
    unfold personIds. cbn. apply not_elem_of_nil.
  - cbn [JS.findIn]. rewrite (sameElement_ids person p id j Hperson Hp).
    rewrite (personIds_cons p prev j Hp).
    destruct (String.eqb j id) eqn:E.
    + apply String.eqb_eq in E. subst j. exists p. split; [reflexivity |].
      apply elementIdOf_get in Hp as [_ ->]. symmetry. apply bool_decide_eq_true.
      apply elem_of_cons. now left.
    + apply String.eqb_neq in E. destruct IH as (found & -> & Hfound).
      exists found. split; [reflexivity |]. rewrite Hfound.
      apply bool_decide_ext. rewrite elem_of_cons. intuition congruence.
Qed.

Lemma filterOpt_others (person : JSValue) (prev : list JSValue) (id : string) :
  elementIdOf person = Some id ->
  Forall (fun p => is_Some (elementIdOf p)) prev ->
  exists kept,
    OutreachForm.filterOpt (fun p => negb <$> OutreachForm.sameElement person p) prev
    = Some kept
    /\ Forall (fun p => is_Some (elementIdOf p)) kept
    /\ personIds kept = filter (fun j => j <> id) (personIds prev).
Proof.
  intros Hperson Hprev. induction Hprev as [|p prev [j Hp] _ (kept & IH & Hkept & Hids)].
  - exists []. repeat split. constructor.
  - cbn [OutreachForm.filterOpt]. rewrite (sameElement_ids person p id j Hperson Hp), IH.
    rewrite (personIds_cons p prev j Hp). cbn [fmap option_fmap option_map].
    destruct (String.eqb j id) eqn:E; cbn [negb].
    + apply String.eqb_eq in E. subst j. exists kept.
      split; [reflexivity |]. split; [exact Hkept |].
      rewrite filter_cons_False by (intros Hx; now apply Hx). exact Hids.
    + apply String.eqb_neq in E. exists (p :: kept).
      split; [reflexivity |]. split; [constructor; eauto |].
      rewrite filter_cons_True by exact E.
      rewrite (personIds_cons p kept j Hp). now f_equal.
Qed.

(** X25.  toggling a person of the search results flips the membership of
    that person's id in the selection and of no other id: a person who is
    selected is removed, with every entry of the same id, and a person who
    is not is added at the end.  A selection without duplicate ids stays
    without duplicates, so no person is named twice in the payload. *)
Theorem togglePersonSelection_flips (person : JSValue) (prev : list JSValue) (id : string) :
  elementIdOf person = Some id ->
  Forall (fun p => is_Some (elementIdOf p)) prev ->
  exists next,
    OutreachForm.togglePersonSelection person prev = Some next
    /\ Forall (fun p => is_Some (elementIdOf p)) next
    /\ (id ∈ personIds next <-> id ∉ personIds prev)
    /\ (forall j, j <> id -> j ∈ personIds next <-> j ∈ personIds prev)
    /\ (id ∉ personIds prev -> next = (prev ++ [person])%list)
    /\ (NoDup (personIds prev) -> NoDup (personIds next)).
Proof.
  intros Hperson Hprev. unfold OutreachForm.togglePersonSelection.
  destruct (findIn_selected person prev id Hperson Hprev) as (found & -> & Hfound).
  cbn [mbind option_bind]. rewrite Hfound.
  destruct (bool_decide (id ∈ personIds prev)) eqn:E.
  - apply bool_decide_eq_true in E.
    destruct (filterOpt_others person prev id Hperson Hprev) as (kept & -> & Hkept & Hids).
    exists kept. split; [reflexivity |]. split; [exact Hkept |]. rewrite Hids.
    split; [| split; [| split]].
    + rewrite list_elem_of_filter. split; [intros [Hne _]; now contradiction Hne | tauto].
    + intros j Hj. rewrite list_elem_of_filter. tauto.
    + tauto.
    + apply NoDup_filter.
  - apply bool_decide_eq_false in E.
    exists (prev ++ [person])%list. split; [reflexivity |].
    assert (Hnext : personIds (prev ++ [person]) = (personIds prev ++ [id])%list).
    { unfold personIds. rewrite omap_app. cbn [omap list_omap]. now rewrite Hperson. }
    split; [apply Forall_app; split; [exact Hprev | repeat constructor; eauto] |].
    rewrite Hnext. split; [| split; [| split]].
    + rewrite elem_of_app, list_elem_of_singleton. tauto.
    + intros j Hj. rewrite elem_of_app, list_elem_of_singleton. tauto.
    + reflexivity.
    + intros Hnd. apply NoDup_app. split; [exact Hnd |].
      split; [| apply NoDup_singleton].
      intros j Hj Hin. apply list_elem_of_singleton in Hin. congruence.
Qed.

Lemma togglePersonSelection_flips_witness :
  let ann := JObj [("element_id", JStr "p1"); ("name", JStr "Ann")] in
  let bob := JObj [("element_id", JStr "p2"); ("name", JStr "Bob")] in
  exists next,
    OutreachForm.togglePersonSelection ann [ann; bob] = Some next
    /\ Forall (fun p => is_Some (elementIdOf p)) next
    /\ ("p1" ∈ personIds next <-> "p1" ∉ personIds [ann; bob])
    /\ (forall j, j <> "p1" -> j ∈ personIds next <-> j ∈ personIds [ann; bob])
    /\ ("p1" ∉ personIds [ann; bob] -> next = ([ann; bob] ++ [ann])%list)
    /\ (NoDup (personIds [ann; bob]) -> NoDup (personIds next)).
Proof.
  apply (togglePersonSelection_flips
           (JObj [("element_id", JStr "p1"); ("name", JStr "Ann")])
           [JObj [("element_id", JStr "p1"); ("name", JStr "Ann")];
            JObj [("element_id", JStr "p2"); ("name", JStr "Bob")]] "p1").
  - reflexivity.
  - repeat constructor; eexists; reflexivity.
Defined.

(** ** The prefill of the crawl form *)






(** ** The date range picker *)

(** X27.  a click on a day keeps the range of the picker ordered: a click
    before the start date makes the old start the end, so an end date
    never precedes its start date.  A click on a future day changes
    nothing, and every date of the new range is the clicked day, which is
    not in the future, or a date that was in the range. *)
Theorem handleDateClick_ordered (today selectedDate : Z) (range : DateRangePicker.Range) :
  orderedRange range ->
  let range' := DateRangePicker.handleDateClick today selectedDate range in
  orderedRange range'
  /\ ((selectedDate > today)%Z -> range' = range)
  /\ ((selectedDate <= today)%Z ->
      selectedDate ∈ rangeDates range'
      /\ DateRangePicker.internalStartDate range' <> None)
  /\ (forall d, d ∈ rangeDates range' ->
        d ∈ rangeDates range \/ (d = selectedDate /\ (d <= today)%Z)).
Proof.
  intros Hord range'. subst range'. unfold DateRangePicker.handleDateClick.
  destruct (selectedDate >? today)%Z eqn:Efuture.
  - split; [exact Hord |]. split; [reflexivity |]. split; [lia |]. auto.
  - assert (Hpast : (selectedDate <= today)%Z) by lia.
    assert (Hsel : forall d, d = selectedDate -> d = selectedDate /\ (d <= today)%Z)
      by (intros d ->; split; [reflexivity | exact Hpast]).
    destruct range as [[start|] [finish|]]; unfold orderedRange, rangeDates in *;
      cbn [DateRangePicker.internalStartDate DateRangePicker.internalEndDate] in *.
    + split; [exact I |]. split; [lia |].
      split; [split; [cbn; apply list_elem_of_here | discriminate] |].
      intros d Hd. cbn in Hd. apply list_elem_of_singleton in Hd. auto.
    + destruct (selectedDate <? start)%Z eqn:Ebefore;
        cbn [DateRangePicker.internalStartDate DateRangePicker.internalEndDate].
      * split; [lia |]. split; [lia |].
        split; [split; [cbn; apply list_elem_of_here | discriminate] |].
        intros d Hd. cbn in Hd. apply elem_of_cons in Hd as [-> | Hd]; [auto |].
        apply list_elem_of_singleton in Hd. subst d. left. cbn. apply list_elem_of_here.
      * split; [lia |]. split; [lia |].
        split; [split; [cbn; apply list_elem_of_further, list_elem_of_here | discriminate] |].
        intros d Hd. cbn in Hd. apply elem_of_cons in Hd as [-> | Hd].
        -- left. cbn. apply list_elem_of_here.
        -- apply list_elem_of_singleton in Hd. auto.
    + contradiction.
    + split; [exact I |]. split; [lia |].
      split; [split; [cbn; apply list_elem_of_here | discriminate] |].
      intros d Hd. cbn in Hd. apply list_elem_of_singleton in Hd. auto.
Qed.

Lemma handleDateClick_ordered_witness :
  let range := {| DateRangePicker.internalStartDate := Some 20;
                  DateRangePicker.internalEndDate := None |} in
  let range' := DateRangePicker.handleDateClick 30 10 range in
  orderedRange range'
  /\ ((10 > 30)%Z -> range' = range)
  /\ ((10 <= 30)%Z ->
      10%Z ∈ rangeDates range' /\ DateRangePicker.internalStartDate range' <> None)
  /\ (forall d, d ∈ rangeDates range' ->
        d ∈ rangeDates range \/ (d = 10%Z /\ (d <= 30)%Z)).
Proof.
  apply (handleDateClick_ordered 30 10
           {| DateRangePicker.internalStartDate := Some 20;
              DateRangePicker.internalEndDate := None |}).
  vm_compute. exact I.
Defined.

(** ** The email form *)




